(** * useGoogleAuth: a shallow embedding of [src/index.ts]

    The hook is a set of closures over the destructured props and two React
    state flags.  Every closure of the source is a computation in a small
    monad [Js] that threads the browser/vendor/hook state, writes the trace
    of calls made on the browser, on the vendor client and on the caller's
    callbacks, and can end in an uncaught exception.  The browser, React and
    the vendor script drive the closures through [Event]s. *)

From Stdlib Require Import String List Bool Lia.
Import ListNotations.
Open Scope string_scope.

(** ** Values that cross the hook's boundary *)

(** A caller-supplied function, known by its identity only. *)
Definition Callback := nat.

(** A vendor or browser error object; the hook only passes it on. *)
Definition Err := string.

(** ['popup' | 'redirect'] *)
Inductive UxMode := popup | redirect.

(** ['consent' | 'select_account' | 'none'] *)
Inductive Prompt := consent | select_account | none.

(** [uxMode === 'redirect'] *)
Definition is_redirect (m : UxMode) : bool :=
  match m with redirect => true | popup => false end.

(** [interface GoogleLoginProps] (index.ts 307-348): a property marked [?]
    is [None] when the caller leaves it out. *)
Module Props.
Record GoogleLoginProps := {
  clientId : string;
  cookiePolicy : option string;
  fetchBasicProfile : option bool;
  hostedDomains : option string;
  onLoadFailure : option Callback;
  onLoginChange : option Callback;
  onLoginFailure : option Callback;
  onLoginSuccess : option Callback;
  onLogoutFailure : option Callback;
  onLogoutSuccess : option Callback;
  prompt : option Prompt;
  redirectUri : option string;
  scope : option (list string);
  src : option string;
  stayLoggedIn : option bool;
  uxMode : option UxMode
}.
End Props.
Definition GoogleLoginProps := Props.GoogleLoginProps.

(** [interface GoogleClientConfig] (index.ts 249-282). *)
Module ClientConfig.
Record GoogleClientConfig := {
  access_type : option string;
  client_id : string;
  cookie_policy : option string;
  fetch_basic_profile : option bool;
  hosted_domains : option string;
  redirect_uri : option string;
  scope : option string;
  ux_mode : option UxMode
}.
End ClientConfig.
Definition GoogleClientConfig := ClientConfig.GoogleClientConfig.

(** [interface GoogleSignInOptions] (index.ts 284-302). *)
Module SignInOptions.
Record GoogleSignInOptions := {
  prompt : option Prompt;
  redirect_uri : option string;
  scope : option string;
  ux_mode : option UxMode
}.
End SignInOptions.
Definition GoogleSignInOptions := SignInOptions.GoogleSignInOptions.

(** ** Vendor objects read by the hook

    The source types them [any]; the shapes are those of the Google Sign-In
    client reference cited at index.ts 305. *)

Record BasicProfile := {
  getId : string;
  getImageUrl : string;
  getEmail : string;
  getName : string;
  getGivenName : string;
  getFamilyName : string
}.

Record AuthResponse := {
  access_token : string;
  id_token : string;
  expires_in : nat;
  expires_at : nat
}.

Record GoogleUser := {
  getBasicProfile : BasicProfile;
  getAuthResponse : bool -> AuthResponse
}.

(** What the hook reads from a [GoogleAuth] object: [isSignedIn.get()] and
    [currentUser.get()]. *)
Record GoogleAuth := {
  isSignedIn_get : bool;
  currentUser_get : GoogleUser
}.

(** The argument of [handleLoginSuccess] is typed [any]: the source passes
    it a [GoogleUser] (lines 101, 122, 165) and the value that
    [reloadAuthResponse()] resolves to, an [AuthResponse] (line 232). *)
Inductive Response :=
| UserResponse (u : GoogleUser)
| TokenResponse (a : AuthResponse).

(** A settled promise. *)
Inductive Settled (A : Type) :=
| Fulfilled (a : A)
| Rejected (e : Err).
Arguments Fulfilled {A} a.
Arguments Rejected {A} e.

(** ** What the caller's callbacks receive *)

Record Profile := {
  googleId : string;
  imageUrl : string;
  email : string;
  name : string;
  givenName : string;
  familyName : string
}.

(** The object literal of index.ts 200-212. *)
Record GoogleSuccessObject := {
  accessToken : string;
  profile : Profile;
  tokenId : string;
  tokenObject : AuthResponse
}.

Inductive Arg :=
| NoArg
| BoolArg (b : bool)
| ErrorArg (e : Err)
| SuccessArg (o : GoogleSuccessObject).

(** ** The page *)

Record Element := {
  tagName : string;
  id : option string;
  src_attr : string;
  async : bool
}.

Record Document := {
  head : list Element;
  body : list Element
}.

Definition has_id (i : string) (el : Element) : bool :=
  match id el with
  | Some j => String.eqb i j
  | None => false
  end.

(** [document.getElementById(i)]: the first element with that id, in
    document order. *)
Definition getElementById (i : string) (d : Document) : option Element :=
  find (has_id i) (head d ++ body d).

(** [document.head.appendChild(el)] *)
Definition head_appendChild (el : Element) (d : Document) : Document :=
  {| head := head d ++ [el]; body := body d |}.

(** ** Trace *)

(** Calls the hook makes on the browser, on the vendor client and on the
    caller's callbacks, and exceptions nobody catches. *)
Inductive Effect :=
| AppendChild (el : Element)
| GapiLoad (lib : string)
| GetAuthInstance
| Auth2Init (cfg : GoogleClientConfig)
| AuthThen
| IsSignedInCall (method : string) (arg : option Callback)
| CurrentUserGet
| ReloadAuthResponse
| AuthSignIn (opts : GoogleSignInOptions)
| AuthSignOut
| AuthDisconnect
| ConsoleError (e : Err)
| Invoke (f : Callback) (a : Arg)
| Throw (msg : string).

(** ** State *)

(** Closures the hook has handed to the browser or to the vendor and that
    have not run yet, named by the place that registers them. *)
Inductive Handler :=
| ScriptListeners       (* 45-46   script 'load' / 'error' listeners     *)
| Auth2Callbacks        (* 77-141  gapi.load('auth2', ok, failed)        *)
| InitHandlers          (* 87-113  gapi.auth2.init(cfg).then(ok, failed) *)
| ReadyHandlers         (* 118-135 googleAuth.then(ok, failed)           *)
| SignInHandlers        (* 163-167 googleAuth.signIn(o).then(ok, failed) *)
| SignOutReadyHandlers  (* 177-190 googleAuth.then(ok, failed)           *)
| SignOutHandlers       (* 179-187 googleAuth.signOut().then(ok)         *)
| ReloadHandlers.       (* 231-234 reloadAuthResponse().then(ok, failed) *)

Definition Handler_eqb (a b : Handler) : bool :=
  match a, b with
  | ScriptListeners, ScriptListeners
  | Auth2Callbacks, Auth2Callbacks
  | InitHandlers, InitHandlers
  | ReadyHandlers, ReadyHandlers
  | SignInHandlers, SignInHandlers
  | SignOutReadyHandlers, SignOutReadyHandlers
  | SignOutHandlers, SignOutHandlers
  | ReloadHandlers, ReloadHandlers => true
  | _, _ => false
  end.

(** Shared by every component on the page: the DOM and the listeners the
    vendor holds on [isSignedIn]. *)
Record Env := {
  document : Document;
  isSignedIn_listeners : list Callback
}.

(** One mounted instance of the hook: the two [useState] flags (lines
    31-32) and its registered closures. *)
Record Hook := {
  gapiLoaded : bool;
  authLoaded : bool;
  pending : list Handler
}.

Record World := {
  env : Env;
  hook : Hook
}.

Definition initial_hook : Hook :=
  {| gapiLoaded := false; authLoaded := false; pending := [] |}.

Definition initial (d : Document) : World :=
  {| env := {| document := d; isSignedIn_listeners := [] |};
     hook := initial_hook |}.

Definition registered (h : Handler) (w : World) : bool :=
  existsb (Handler_eqb h) (pending (hook w)).

Fixpoint remove_one (h : Handler) (l : list Handler) : list Handler :=
  match l with
  | [] => []
  | x :: l' => if Handler_eqb h x then l' else x :: remove_one h l'
  end.

(** ** The monad of a running closure *)

(** How a closure ends: with a value, or with an exception on its way up. *)
Inductive Completion (A : Type) :=
| Normal (a : A)
| Thrown (msg : string).
Arguments Normal {A} a.
Arguments Thrown {A} msg.

Record Outcome (A : Type) := {
  trace : list Effect;
  world : World;
  result : Completion A
}.
Arguments trace {A} _.
Arguments world {A} _.
Arguments result {A} _.

Definition Js (A : Type) := World -> Outcome A.

Definition ret {A} (a : A) : Js A :=
  fun w => {| trace := []; world := w; result := Normal a |}.

Definition bind {A B} (c : Js A) (k : A -> Js B) : Js B :=
  fun w =>
    match c w with
    | {| trace := t; world := w1; result := Normal a |} =>
        match k a w1 with
        | {| trace := t'; world := w2; result := res |} =>
            {| trace := t ++ t'; world := w2; result := res |}
        end
    | {| trace := t; world := w1; result := Thrown msg |} =>
        {| trace := t; world := w1; result := Thrown msg |}
    end.

Notation "x <- c ;; k" := (bind c (fun x => k))
  (at level 61, c at next level, right associativity).
Notation "c ;; k" := (bind c (fun _ => k))
  (at level 61, right associativity).

Definition emit (e : Effect) : Js unit :=
  fun w => {| trace := [e]; world := w; result := Normal tt |}.

Definition throw {A} (msg : string) : Js A :=
  fun w => {| trace := []; world := w; result := Thrown msg |}.

Definition gets {A} (f : World -> A) : Js A :=
  fun w => {| trace := []; world := w; result := Normal (f w) |}.

Definition modify (f : World -> World) : Js unit :=
  fun w => {| trace := []; world := f w; result := Normal tt |}.

Definition skip : Js unit := ret tt.

(** [promise.catch(e => console.error(e))] around a handler. *)
Definition catch_log (c : Js unit) : Js unit :=
  fun w =>
    match c w with
    | {| trace := t; world := w1; result := Normal a |} =>
        {| trace := t; world := w1; result := Normal a |}
    | {| trace := t; world := w1; result := Thrown msg |} =>
        {| trace := t ++ [ConsoleError msg]; world := w1; result := Normal tt |}
    end.

(** A closure called by the browser or the vendor: an exception that
    leaves it is reported and goes no further. *)
Definition top_level (c : Js unit) : Js unit :=
  fun w =>
    match c w with
    | {| trace := t; world := w1; result := Normal a |} =>
        {| trace := t; world := w1; result := Normal a |}
    | {| trace := t; world := w1; result := Thrown msg |} =>
        {| trace := t ++ [Throw msg]; world := w1; result := Normal tt |}
    end.

(** *** State updates *)

Definition with_hook (f : Hook -> Hook) (w : World) : World :=
  {| env := env w; hook := f (hook w) |}.

Definition with_env (f : Env -> Env) (w : World) : World :=
  {| env := f (env w); hook := hook w |}.

(** [setGapiLoaded(v)] *)
Definition setGapiLoaded (v : bool) : Js unit :=
  modify (with_hook (fun h =>
    {| gapiLoaded := v; authLoaded := authLoaded h; pending := pending h |})).

(** [setAuthLoaded(v)] *)
Definition setAuthLoaded (v : bool) : Js unit :=
  modify (with_hook (fun h =>
    {| gapiLoaded := gapiLoaded h; authLoaded := v; pending := pending h |})).

Definition register (x : Handler) : Js unit :=
  modify (with_hook (fun h =>
    {| gapiLoaded := gapiLoaded h; authLoaded := authLoaded h;
       pending := x :: pending h |})).

Definition consume (x : Handler) : Js unit :=
  modify (with_hook (fun h =>
    {| gapiLoaded := gapiLoaded h; authLoaded := authLoaded h;
       pending := remove_one x (pending h) |})).

(** *** Browser and vendor calls *)

Definition document_getElementById (i : string) : Js (option Element) :=
  gets (fun w => getElementById i (document (env w))).

Definition document_head_appendChild (el : Element) : Js unit :=
  emit (AppendChild el) ;;
  modify (with_env (fun e =>
    {| document := head_appendChild el (document e);
       isSignedIn_listeners := isSignedIn_listeners e |})).

(** [window.gapi.auth2.getAuthInstance()]; the vendor answers [inst]. *)
Definition getAuthInstance (inst : option GoogleAuth) : Js (option GoogleAuth) :=
  emit GetAuthInstance ;; ret inst.

(** [o.isSignedIn.get()] *)
Definition isSignedIn_dot_get (o : GoogleAuth) : Js bool :=
  emit (IsSignedInCall "get" None) ;; ret (isSignedIn_get o).

(** [o.currentUser.get()] *)
Definition currentUser_dot_get (o : GoogleAuth) : Js GoogleUser :=
  emit CurrentUserGet ;; ret (currentUser_get o).

(** [o.isSignedIn.<method>(f)] for a method other than [get].  The vendor's
    [isSignedIn] has the methods [get] and [listen]; [listen(f)] adds [f]
    to the listeners of session changes, and calling a property that is
    not there is a TypeError. *)
Definition isSignedIn_dot (method : string) (f : Callback) : Js unit :=
  if String.eqb method "listen" then
    emit (IsSignedInCall method (Some f)) ;;
    modify (with_env (fun e =>
      {| document := document e;
         isSignedIn_listeners := isSignedIn_listeners e ++ [f] |}))
  else
    throw ("isSignedIn." ++ method ++ " is not a function").

(** [f(a)] where [f] may be [undefined]. *)
Definition call (fname : string) (f : option Callback) (a : Arg) : Js unit :=
  match f with
  | Some g => emit (Invoke g a)
  | None => throw (fname ++ " is not a function")
  end.

(** [if (f) { f(a) }] *)
Definition call_if_supplied (f : option Callback) (a : Arg) : Js unit :=
  match f with
  | Some g => emit (Invoke g a)
  | None => skip
  end.

(** [xs.join(sep)] on an array of strings. *)
Definition join (sep : string) (xs : list string) : string :=
  String.concat sep xs.

Definition or_default {A} (d : A) (o : option A) : A :=
  match o with
  | Some a => a
  | None => d
  end.

(** [o.k] on an object literal: the value of property [k], if there. *)
Fixpoint field {V} (k : string) (o : list (string * V)) : option V :=
  match o with
  | [] => None
  | (k', v) :: o' => if String.eqb k k' then Some v else field k o'
  end.

(** ** Events

    What happens to a mounted hook: React runs its effects, the browser
    loads the script, the vendor calls back or settles a promise, the
    component calls a field of the returned object.  Where the closure
    asks the vendor for the auth instance, the event carries the answer. *)
Inductive Event :=
| Mount (inst : option GoogleAuth)
| ScriptLoad
| ScriptError (e : Err)
| Auth2Loaded (inst inst' : option GoogleAuth)
| Auth2Failed (e : Err)
| InitSettled (r : Settled GoogleAuth)
| ReadySettled (r : Settled GoogleAuth)
| Call (field_name : string) (inst : option GoogleAuth)
| SignInSettled (r : Settled GoogleUser)
| SignOutReady (r : Settled unit)
| SignOutSettled (r : Settled unit)
| ReloadSettled (r : Settled AuthResponse)
| SessionChange (b : bool).

(** ** The hook (index.ts 12-243) *)

Section UseGoogleAuth.

Variable props : GoogleLoginProps.

(** *** The destructured parameter (lines 12-29) *)

Definition clientId : string := Props.clientId props.
Definition cookiePolicy : string :=
  or_default "single_host_origin" (Props.cookiePolicy props).
Definition hostedDomains : option string := Props.hostedDomains props.
Definition fetchBasicProfile : option bool := Props.fetchBasicProfile props.
Definition onLoginChange : option Callback := Props.onLoginChange props.
Definition onLoginFailure : option Callback := Props.onLoginFailure props.
Definition onLoadFailure : option Callback := Props.onLoadFailure props.
Definition onLoginSuccess : option Callback := Props.onLoginSuccess props.
Definition onLogoutFailure : option Callback := Props.onLogoutFailure props.
Definition onLogoutSuccess : option Callback := Props.onLogoutSuccess props.
Definition prompt : Prompt := or_default select_account (Props.prompt props).
Definition redirectUri : option string := Props.redirectUri props.
Definition scope : list string := or_default ["profile"] (Props.scope props).
Definition src : string :=
  or_default "https://apis.google.com/js/platform.js" (Props.src props).
Definition stayLoggedIn : bool := or_default false (Props.stayLoggedIn props).
Definition uxMode : UxMode := or_default popup (Props.uxMode props).

(** *** [handleLoginSuccess] (lines 195-214) *)

Definition successObject (basicProfile : BasicProfile)
    (authResponse : AuthResponse) : GoogleSuccessObject :=
  {| accessToken := access_token authResponse;
     profile :=
       {| googleId := getId basicProfile;
          imageUrl := getImageUrl basicProfile;
          email := getEmail basicProfile;
          name := getName basicProfile;
          givenName := getGivenName basicProfile;
          familyName := getFamilyName basicProfile |};
     tokenId := id_token authResponse;
     tokenObject := authResponse |}.

Definition handleLoginSuccess (response : Response) : Js unit :=
  match response with
  | UserResponse u =>
      let basicProfile := getBasicProfile u in
      let authResponse := getAuthResponse u true in
      call_if_supplied onLoginSuccess
        (SuccessArg (successObject basicProfile authResponse))
  | TokenResponse _ => throw "response.getBasicProfile is not a function"
  end.

(** *** [handleLoginFailure] (lines 216-220) *)

Definition handleLoginFailure (response : Err) : Js unit :=
  call_if_supplied onLoginFailure (ErrorArg response).

(** *** First effect: the script tag (lines 37-55) *)

Definition script : Element :=
  {| tagName := "script";
     id := Some "google-script";
     src_attr := src;
     async := true |}.

(** The cleanup returned at lines 50-53 runs when the component unmounts,
    after which the hook's state is gone; it is not part of a mounted
    hook's events. *)
Definition scriptEffect : Js unit :=
  found <- document_getElementById "google-script" ;;
  match found with
  | None =>
      register ScriptListeners ;;
      document_head_appendChild script
  | Some _ => skip
  end.

(** The 'load' listener of line 45. *)
Definition on_script_load : Js unit := setGapiLoaded true.

(** The 'error' listener of line 46: [addEventListener] ignores a
    listener that is [undefined]. *)
Definition on_script_error (e : Err) : Js unit :=
  call_if_supplied onLoadFailure (ErrorArg e).

(** *** Second effect: the auth client (lines 61-143) *)

Definition clientConfig : GoogleClientConfig :=
  {| ClientConfig.client_id := clientId;
     ClientConfig.cookie_policy := Some cookiePolicy;
     ClientConfig.fetch_basic_profile := fetchBasicProfile;
     ClientConfig.hosted_domains := hostedDomains;
     ClientConfig.redirect_uri :=
       if is_redirect uxMode then redirectUri else Some "";
     ClientConfig.scope := Some (join " " scope);
     ClientConfig.ux_mode := Some uxMode;
     ClientConfig.access_type :=
       if stayLoggedIn then Some "offline" else None |}.

(** [window.gapi] is what the vendor's script defines: the embedding
    takes the script that loaded to be the vendor's, so that
    [window.gapi.load] is there when the flag is set.  A page whose [src]
    loads something else is outside it. *)
Definition gapiEffect : Js unit :=
  loaded <- gets (fun w => gapiLoaded (hook w)) ;;
  if loaded then
    emit (GapiLoad "auth2") ;;
    register Auth2Callbacks
  else skip.

(** Lines 78-137, the first callback of [gapi.load]. *)
Definition on_auth2_loaded (inst : option GoogleAuth) : Js unit :=
  googleAuth <- getAuthInstance inst ;;
  setAuthLoaded true ;;
  match googleAuth with
  | None =>
      emit (Auth2Init clientConfig) ;;
      register InitHandlers
  | Some _ =>
      emit AuthThen ;;
      register ReadyHandlers
  end.

(** Lines 138-140, the second callback of [gapi.load]. *)
Definition on_auth2_failed (error : Err) : Js unit :=
  call "onLoadFailure" onLoadFailure (ErrorArg error).

(** Lines 89-103. *)
Definition on_init_fulfilled (response : GoogleAuth) : Js unit :=
  loggedIn <- isSignedIn_dot_get response ;;
  match onLoginChange with
  | Some f => isSignedIn_dot "listen" f
  | None => skip
  end ;;
  if loggedIn then
    u <- currentUser_dot_get response ;;
    handleLoginSuccess (UserResponse u)
  else skip.

(** Lines 105-111. *)
Definition on_init_rejected (error : Err) : Js unit :=
  emit (ConsoleError error) ;;
  call_if_supplied onLoadFailure (ErrorArg error).

(** Lines 87-113: the settled [init] promise runs one of the two
    handlers, under the [.catch] of line 113. *)
Definition on_init_settled (r : Settled GoogleAuth) : Js unit :=
  catch_log
    match r with
    | Fulfilled response => on_init_fulfilled response
    | Rejected error => on_init_rejected error
    end.

(** Lines 119-129. *)
Definition on_ready_fulfilled (googleAuth : GoogleAuth) : Js unit :=
  (if stayLoggedIn then
     u <- currentUser_dot_get googleAuth ;;
     handleLoginSuccess (UserResponse u)
   else skip) ;;
  match onLoginChange with
  | Some f => isSignedIn_dot "listener" f
  | None => skip
  end.

(** Lines 130-134. *)
Definition on_ready_rejected (error : Err) : Js unit :=
  emit (ConsoleError error) ;;
  handleLoginFailure error.

(** Lines 118-135. *)
Definition on_ready_settled (r : Settled GoogleAuth) : Js unit :=
  match r with
  | Fulfilled googleAuth => on_ready_fulfilled googleAuth
  | Rejected error => on_ready_rejected error
  end.

(** *** [signIn] (lines 149-170) *)

Definition signInOptions : GoogleSignInOptions :=
  {| SignInOptions.prompt := Some prompt;
     SignInOptions.redirect_uri := redirectUri;
     SignInOptions.scope := Some (join " " scope);
     SignInOptions.ux_mode := Some uxMode |}.

Definition signIn (inst : option GoogleAuth) : Js unit :=
  ready <- gets (fun w => authLoaded (hook w)) ;;
  if ready then
    googleAuth <- getAuthInstance inst ;;
    match googleAuth with
    | Some _ =>
        emit (AuthSignIn signInOptions) ;;
        register SignInHandlers
    | None => skip
    end
  else skip.

(** Lines 165-166. *)
Definition on_signIn_settled (r : Settled GoogleUser) : Js unit :=
  match r with
  | Fulfilled response => handleLoginSuccess (UserResponse response)
  | Rejected error => handleLoginFailure error
  end.

(** *** [signOut] (lines 172-193) *)

Definition signOut (inst : option GoogleAuth) : Js unit :=
  ready <- gets (fun w => authLoaded (hook w)) ;;
  if ready then
    googleAuth <- getAuthInstance inst ;;
    match googleAuth with
    | Some _ =>
        emit AuthThen ;;
        register SignOutReadyHandlers
    | None => skip
    end
  else skip.

(** Lines 178-189. *)
Definition on_signOut_ready (r : Settled unit) : Js unit :=
  match r with
  | Fulfilled _ =>
      emit AuthSignOut ;;
      register SignOutHandlers
  | Rejected error => call "onLogoutFailure" onLogoutFailure (ErrorArg error)
  end.

(** Lines 180-186; a rejected [signOut()] has no handler. *)
Definition on_signOut_settled (r : Settled unit) : Js unit :=
  match r with
  | Fulfilled _ =>
      emit AuthDisconnect ;;
      call_if_supplied onLogoutSuccess NoArg
  | Rejected _ => skip
  end.

(** *** Third effect: reload of the session (lines 222-237) *)

Definition reloadEffect (inst : option GoogleAuth) : Js unit :=
  ready <- gets (fun w => authLoaded (hook w)) ;;
  if ready && stayLoggedIn then
    googleAuth <- getAuthInstance inst ;;
    match googleAuth with
    | Some g =>
        signedIn <- isSignedIn_dot_get g ;;
        if signedIn then
          _ <- currentUser_dot_get g ;;
          emit ReloadAuthResponse ;;
          register ReloadHandlers
        else skip
    | None => skip
    end
  else skip.

(** Lines 232-233. *)
Definition on_reload_settled (r : Settled AuthResponse) : Js unit :=
  match r with
  | Fulfilled response => handleLoginSuccess (TokenResponse response)
  | Rejected error => handleLoginFailure error
  end.

(** *** The returned object (lines 239-242) *)

Definition useGoogleAuth : list (string * (option GoogleAuth -> Js unit)) :=
  [ ("signIn", signIn); ("signOut", signOut) ].

(** The component calls [returned.k()]. *)
Definition call_returned (k : string) (inst : option GoogleAuth) : Js unit :=
  match field k useGoogleAuth with
  | Some f => f inst
  | None => throw (k ++ " is not a function")
  end.

(** *** What drives the closures *)

(** React runs an effect again after a closure changed the state its
    dependency array names. *)
Definition then_effect (c : Js unit) (dep : World -> bool)
    (effect : Js unit) : Js unit :=
  before <- gets dep ;;
  c ;;
  after <- gets dep ;;
  if Bool.eqb before after then skip else effect.

(** A listener stays registered after it ran. *)
Definition listener (h : Handler) (c : Js unit) : Js unit :=
  on <- gets (registered h) ;;
  if on then c else skip.

(** A callback handed to a promise or to [gapi.load] runs once. *)
Definition once (h : Handler) (c : Js unit) : Js unit :=
  on <- gets (registered h) ;;
  if on then consume h ;; c else skip.

(** The vendor tells its [isSignedIn] listeners the new value. *)
Definition session_change (b : bool) : Js unit :=
  fun w =>
    {| trace := map (fun f => Invoke f (BoolArg b))
                    (isSignedIn_listeners (env w));
       world := w; result := Normal tt |}.

Definition on_event (ev : Event) : Js unit :=
  match ev with
  | Mount inst =>
      top_level scriptEffect ;;
      top_level gapiEffect ;;
      top_level (reloadEffect inst)
  | ScriptLoad =>
      listener ScriptListeners
        (then_effect (top_level on_script_load)
           (fun w => gapiLoaded (hook w)) (top_level gapiEffect))
  | ScriptError e =>
      listener ScriptListeners (top_level (on_script_error e))
  | Auth2Loaded inst inst' =>
      once Auth2Callbacks
        (then_effect (top_level (on_auth2_loaded inst))
           (fun w => authLoaded (hook w)) (top_level (reloadEffect inst')))
  | Auth2Failed e =>
      once Auth2Callbacks (top_level (on_auth2_failed e))
  | InitSettled r =>
      once InitHandlers (top_level (on_init_settled r))
  | ReadySettled r =>
      once ReadyHandlers (top_level (on_ready_settled r))
  | Call k inst => top_level (call_returned k inst)
  | SignInSettled r =>
      once SignInHandlers (top_level (on_signIn_settled r))
  | SignOutReady r =>
      once SignOutReadyHandlers (top_level (on_signOut_ready r))
  | SignOutSettled r =>
      once SignOutHandlers (top_level (on_signOut_settled r))
  | ReloadSettled r =>
      once ReloadHandlers (top_level (on_reload_settled r))
  | SessionChange b => session_change b
  end.

Definition step (ev : Event) (w : World) : Outcome unit := on_event ev w.

(** A run: the trace of every event in order, and the final world. *)
Fixpoint run (evs : list Event) (w : World) : list Effect * World :=
  match evs with
  | [] => ([], w)
  | ev :: evs' =>
      let r := step ev w in
      let rest := run evs' (world r) in
      ((trace r ++ fst rest)%list, snd rest)
  end.

End UseGoogleAuth.

(** ** Reading a trace *)

Definition appended (t : list Effect) : list Element :=
  flat_map (fun e => match e with AppendChild el => [el] | _ => [] end) t.

Definition invocations (t : list Effect) : list (Callback * Arg) :=
  flat_map (fun e => match e with Invoke f a => [(f, a)] | _ => [] end) t.

Definition is_script_load (ev : Event) : bool :=
  match ev with ScriptLoad => true | _ => false end.

Definition is_auth2_loaded (ev : Event) : bool :=
  match ev with Auth2Loaded _ _ => true | _ => false end.

Definition is_mount (ev : Event) : bool :=
  match ev with Mount _ => true | _ => false end.

Definition inits (t : list Effect) : list GoogleClientConfig :=
  flat_map (fun e => match e with Auth2Init cfg => [cfg] | _ => [] end) t.

(** The vendor's sign-in and sign-out operations. *)
Definition is_sign_operation (e : Effect) : bool :=
  match e with
  | AuthSignIn _ | AuthSignOut | AuthDisconnect => true
  | _ => false
  end.

Definition sign_operations (t : list Effect) : list Effect :=
  filter is_sign_operation t.

(** ** Several components on one page

    Each item is a component, given by its props and the state its hook is
    in, that receives an event; the components share the page. *)
Fixpoint page_run (xs : list (GoogleLoginProps * Hook * Event)) (e : Env)
    : list Effect * Env :=
  match xs with
  | [] => ([], e)
  | (p, h, ev) :: xs' =>
      let r := step p ev {| env := e; hook := h |} in
      let rest := page_run xs' (env (world r)) in
      ((trace r ++ fst rest)%list, snd rest)
  end.

(** The props of the first component whose effects React runs. *)
Fixpoint first_mount (xs : list (GoogleLoginProps * Hook * Event))
    : option GoogleLoginProps :=
  match xs with
  | [] => None
  | (p, _, ev) :: xs' => if is_mount ev then Some p else first_mount xs'
  end.

(** ** The props object and the destructured bindings as JavaScript values *)

Inductive PropName :=
| P_clientId | P_cookiePolicy | P_hostedDomains | P_fetchBasicProfile
| P_onLoginChange | P_onLoginFailure | P_onLoadFailure | P_onLoginSuccess
| P_onLogoutFailure | P_onLogoutSuccess | P_prompt | P_redirectUri
| P_scope | P_src | P_stayLoggedIn | P_uxMode.

Inductive JsValue :=
| Undefined
| Str (s : string)
| Boolean (b : bool)
| Strings (xs : list string)
| Function (f : Callback).

Definition Prompt_str (x : Prompt) : string :=
  match x with
  | consent => "consent"
  | select_account => "select_account"
  | none => "none"
  end.

Definition UxMode_str (x : UxMode) : string :=
  match x with
  | popup => "popup"
  | redirect => "redirect"
  end.

Definition opt {A} (f : A -> JsValue) (o : option A) : JsValue :=
  match o with
  | Some a => f a
  | None => Undefined
  end.

(** [props.n], as the caller passed it. *)
Definition supplied (n : PropName) (p : GoogleLoginProps) : JsValue :=
  match n with
  | P_clientId => Str (Props.clientId p)
  | P_cookiePolicy => opt Str (Props.cookiePolicy p)
  | P_hostedDomains => opt Str (Props.hostedDomains p)
  | P_fetchBasicProfile => opt Boolean (Props.fetchBasicProfile p)
  | P_onLoginChange => opt Function (Props.onLoginChange p)
  | P_onLoginFailure => opt Function (Props.onLoginFailure p)
  | P_onLoadFailure => opt Function (Props.onLoadFailure p)
  | P_onLoginSuccess => opt Function (Props.onLoginSuccess p)
  | P_onLogoutFailure => opt Function (Props.onLogoutFailure p)
  | P_onLogoutSuccess => opt Function (Props.onLogoutSuccess p)
  | P_prompt => opt (fun x => Str (Prompt_str x)) (Props.prompt p)
  | P_redirectUri => opt Str (Props.redirectUri p)
  | P_scope => opt Strings (Props.scope p)
  | P_src => opt Str (Props.src p)
  | P_stayLoggedIn => opt Boolean (Props.stayLoggedIn p)
  | P_uxMode => opt (fun x => Str (UxMode_str x)) (Props.uxMode p)
  end.

(** The local [n] of lines 13-28, inside the hook. *)
Definition binding (n : PropName) (p : GoogleLoginProps) : JsValue :=
  match n with
  | P_clientId => Str (clientId p)
  | P_cookiePolicy => Str (cookiePolicy p)
  | P_hostedDomains => opt Str (hostedDomains p)
  | P_fetchBasicProfile => opt Boolean (fetchBasicProfile p)
  | P_onLoginChange => opt Function (onLoginChange p)
  | P_onLoginFailure => opt Function (onLoginFailure p)
  | P_onLoadFailure => opt Function (onLoadFailure p)
  | P_onLoginSuccess => opt Function (onLoginSuccess p)
  | P_onLogoutFailure => opt Function (onLogoutFailure p)
  | P_onLogoutSuccess => opt Function (onLogoutSuccess p)
  | P_prompt => Str (Prompt_str (prompt p))
  | P_redirectUri => opt Str (redirectUri p)
  | P_scope => Strings (scope p)
  | P_src => Str (src p)
  | P_stayLoggedIn => Boolean (stayLoggedIn p)
  | P_uxMode => Str (UxMode_str (uxMode p))
  end.

(** ** Two readings of the specification, to compare the code with *)

(** The configuration handed to [gapi.auth2.init] copies the props one to
    one, [redirect_uri] included, whatever the [uxMode]. *)
Definition config_copies_props (p : GoogleLoginProps)
    (cfg : GoogleClientConfig) : Prop :=
  ClientConfig.client_id cfg = clientId p /\
  ClientConfig.cookie_policy cfg = Some (cookiePolicy p) /\
  ClientConfig.fetch_basic_profile cfg = fetchBasicProfile p /\
  ClientConfig.hosted_domains cfg = hostedDomains p /\
  ClientConfig.scope cfg = Some (join " " (scope p)) /\
  ClientConfig.ux_mode cfg = Some (uxMode p) /\
  ClientConfig.redirect_uri cfg = redirectUri p /\
  (ClientConfig.access_type cfg = Some "offline" <-> stayLoggedIn p = true).

(** Every property but [clientId] has a default: left out, its binding is
    a defined value. *)
Definition only_clientId_lacks_default : Prop :=
  forall n, n <> P_clientId ->
  forall p, supplied n p = Undefined -> binding n p <> Undefined.

(** ** Invariant of the loading chain *)

Definition chain_invariant (w : World) : Prop :=
  (registered Auth2Callbacks w = true -> gapiLoaded (hook w) = true) /\
  (authLoaded (hook w) = true -> gapiLoaded (hook w) = true).

(** [document.head.appendChild] of each element in turn. *)
Definition append_all (els : list Element) (d : Document) : Document :=
  {| head := head d ++ els; body := body d |}.

(** What one event makes the hook add to the page. *)
Definition injected (p : GoogleLoginProps) (ev : Event) (d : Document)
    : list Element :=
  if is_mount ev then
    match getElementById "google-script" d with
    | None => [script p]
    | Some _ => []
    end
  else [].

(** ** Sample inputs *)

Definition empty_document : Document := {| head := []; body := [] |}.

(** [useGoogleAuth({ clientId: cid })] *)
Definition bare (cid : string) : GoogleLoginProps :=
  {| Props.clientId := cid;
     Props.cookiePolicy := None;
     Props.fetchBasicProfile := None;
     Props.hostedDomains := None;
     Props.onLoadFailure := None;
     Props.onLoginChange := None;
     Props.onLoginFailure := None;
     Props.onLoginSuccess := None;
     Props.onLogoutFailure := None;
     Props.onLogoutSuccess := None;
     Props.prompt := None;
     Props.redirectUri := None;
     Props.scope := None;
     Props.src := None;
     Props.stayLoggedIn := None;
     Props.uxMode := None |}.

(** [{ clientId: 'app', redirectUri: 'https://app.example/cb' }]: a popup
    flow (the default) with a redirect URI. *)
Definition popup_with_redirectUri : GoogleLoginProps :=
  {| Props.clientId := "app";
     Props.cookiePolicy := None;
     Props.fetchBasicProfile := None;
     Props.hostedDomains := None;
     Props.onLoadFailure := None;
     Props.onLoginChange := None;
     Props.onLoginFailure := None;
     Props.onLoginSuccess := None;
     Props.onLogoutFailure := None;
     Props.onLogoutSuccess := None;
     Props.prompt := None;
     Props.redirectUri := Some "https://app.example/cb";
     Props.scope := None;
     Props.src := None;
     Props.stayLoggedIn := None;
     Props.uxMode := None |}.

(** Props with the six callbacks supplied, numbered 1 to 6. *)
Definition with_callbacks : GoogleLoginProps :=
  {| Props.clientId := "app";
     Props.cookiePolicy := None;
     Props.fetchBasicProfile := Some true;
     Props.hostedDomains := None;
     Props.onLoadFailure := Some 1;
     Props.onLoginChange := Some 2;
     Props.onLoginFailure := Some 3;
     Props.onLoginSuccess := Some 4;
     Props.onLogoutFailure := Some 5;
     Props.onLogoutSuccess := Some 6;
     Props.prompt := None;
     Props.redirectUri := None;
     Props.scope := Some ["profile"; "email"];
     Props.src := None;
     Props.stayLoggedIn := None;
     Props.uxMode := None |}.

Definition ada : GoogleUser :=
  {| getBasicProfile :=
       {| getId := "108"; getImageUrl := "https://img.example/ada.png";
          getEmail := "ada@example.org"; getName := "Ada Lovelace";
          getGivenName := "Ada"; getFamilyName := "Lovelace" |};
     getAuthResponse := fun _ =>
       {| access_token := "ya29.a0"; id_token := "eyJhbGci";
          expires_in := 3599; expires_at := 4200 |} |}.

Definition signed_in : GoogleAuth :=
  {| isSignedIn_get := true; currentUser_get := ada |}.

(** The page after mount and the script's load event: [gapi.load] has been
    called and its callbacks wait. *)
Definition script_loaded (p : GoogleLoginProps) : World :=
  snd (run p [Mount None; ScriptLoad] (initial empty_document)).

(** The page after mount: the script tag is in and its listeners wait. *)
Definition mounted (p : GoogleLoginProps) : World :=
  snd (run p [Mount None] (initial empty_document)).

(** The same, after [gapi.load] called back and found the auth instance
    of an earlier initialisation. *)
Definition existing_instance (p : GoogleLoginProps) : World :=
  snd (run p [Mount None; ScriptLoad; Auth2Loaded (Some signed_in) (Some signed_in)]
         (initial empty_document)).

(** The same, after [gapi.load] called back and found no auth instance:
    [authLoaded] is set and [init] has been called. *)
Definition auth_ready (p : GoogleLoginProps) : World :=
  snd (run p [Mount None; ScriptLoad; Auth2Loaded None None]
         (initial empty_document)).

(** ** More readings of a trace and of the state *)

Definition sign_ins (t : list Effect) : list GoogleSignInOptions :=
  flat_map (fun e => match e with AuthSignIn o => [o] | _ => [] end) t.

Definition gapi_loads (t : list Effect) : list string :=
  flat_map (fun e => match e with GapiLoad lib => [lib] | _ => [] end) t.

Definition is_reload (e : Effect) : bool :=
  match e with ReloadAuthResponse => true | _ => false end.

Definition is_disconnect (e : Effect) : bool :=
  match e with AuthDisconnect => true | _ => false end.

Definition is_vendor_signOut (e : Effect) : bool :=
  match e with AuthSignOut => true | _ => false end.

Definition count (f : Effect -> bool) (t : list Effect) : nat :=
  length (filter f t).

(** How many closures registered at [h] still wait. *)
Definition waiting (h : Handler) (w : World) : nat :=
  length (filter (Handler_eqb h) (pending (hook w))).

Definition supplied_callback (o : option Callback) : list Callback :=
  match o with
  | Some f => [f]
  | None => []
  end.

(** The functions the caller passed in the props. *)
Definition callbacks (p : GoogleLoginProps) : list Callback :=
  (supplied_callback (onLoadFailure p) ++
   supplied_callback (onLoginChange p) ++
   supplied_callback (onLoginFailure p) ++
   supplied_callback (onLoginSuccess p) ++
   supplied_callback (onLogoutFailure p) ++
   supplied_callback (onLogoutSuccess p))%list.

(** The component calls [returned.name()]. *)
Definition is_call (name : string) (ev : Event) : bool :=
  match ev with
  | Call k _ => String.eqb k name
  | _ => false
  end.

(** The auth instance the vendor answers with during a call. *)
Definition call_instance (ev : Event) : option GoogleAuth :=
  match ev with
  | Call _ inst => inst
  | _ => None
  end.

Definition is_some {A} (o : option A) : bool :=
  match o with
  | Some _ => true
  | None => false
  end.

(** [gapi.load]'s first callback finding no auth instance. *)
Definition is_auth2_loaded_fresh (ev : Event) : bool :=
  match ev with
  | Auth2Loaded None _ => true
  | _ => false
  end.

(** The [init] promise fulfilled. *)
Definition is_init_fulfilled (ev : Event) : bool :=
  match ev with
  | InitSettled (Fulfilled _) => true
  | _ => false
  end.

(** The state of a hook that found the script tag in place at mount:
    nothing of it is registered and both flags are false. *)
Definition left_out (w : World) : bool :=
  is_some (getElementById "google-script" (document (env w)))
  && match pending (hook w) with [] => true | _ => false end
  && negb (gapiLoaded (hook w))
  && negb (authLoaded (hook w)).

(** [googleAuth && googleAuth.isSignedIn.get()] (line 229) *)
Definition signed_in_instance (o : option GoogleAuth) : bool :=
  match o with
  | Some g => isSignedIn_get g
  | None => false
  end.

(** The runs of the third effect that find [authLoaded] set and a signed-in
    instance: a run of the effects with the flag set, and [gapi.load]'s
    callback setting the flag. *)
Definition reload_trigger (ev : Event) (w : World) : bool :=
  match ev with
  | Mount inst => authLoaded (hook w) && signed_in_instance inst
  | Auth2Loaded _ inst' =>
      registered Auth2Callbacks w && negb (authLoaded (hook w))
      && signed_in_instance inst'
  | _ => false
  end.

(** Every listener the vendor holds is one of the caller's functions. *)
Definition listeners_from (p : GoogleLoginProps) (w : World) : Prop :=
  incl (isSignedIn_listeners (env w)) (callbacks p).

(** ** More sample inputs *)

(** Props asking to stay logged in, with [onLoginSuccess] and
    [onLoginFailure]. *)
Definition staying : GoogleLoginProps :=
  {| Props.clientId := "app";
     Props.cookiePolicy := None;
     Props.fetchBasicProfile := None;
     Props.hostedDomains := None;
     Props.onLoadFailure := None;
     Props.onLoginChange := None;
     Props.onLoginFailure := Some 3;
     Props.onLoginSuccess := Some 4;
     Props.onLogoutFailure := None;
     Props.onLogoutSuccess := None;
     Props.prompt := Some consent;
     Props.redirectUri := None;
     Props.scope := None;
     Props.src := None;
     Props.stayLoggedIn := Some true;
     Props.uxMode := None |}.

Definition signed_out : GoogleAuth :=
  {| isSignedIn_get := false; currentUser_get := ada |}.

(** A page on which another component has put the script tag. *)
Definition page_with_script : Document :=
  {| head := [script (bare "first")]; body := [] |}.

(** A hook mounted on that page. *)
Definition mounted_late (p : GoogleLoginProps) : World :=
  snd (run p [Mount None] (initial page_with_script)).

(** ** Proofs *)

Ltac split_match :=
  match goal with
  | |- context [match ?x with _ => _ end] =>
      lazymatch x with
      | context [match _ with _ => _ end] => fail
      | _ => destruct x eqn:?
      end
  end.

Ltac run_closure :=
  unfold step, on_event, once, listener, then_effect, top_level, catch_log,
    session_change,
    scriptEffect, gapiEffect, reloadEffect, on_script_load, on_script_error,
    on_auth2_loaded, on_auth2_failed, on_init_settled, on_init_fulfilled,
    on_init_rejected, on_ready_settled, on_ready_fulfilled, on_ready_rejected,
    signIn, on_signIn_settled, signOut, on_signOut_ready, on_signOut_settled,
    on_reload_settled, handleLoginSuccess, handleLoginFailure,
    call, call_if_supplied, isSignedIn_dot, isSignedIn_dot_get,
    currentUser_dot_get, getAuthInstance, document_getElementById,
    document_head_appendChild, setGapiLoaded, setAuthLoaded, register,
    consume, skip, bind, ret, emit, throw, gets, modify, with_hook, with_env;
  cbn.

(** The component can reach two closures through the returned object. *)
Lemma call_returned_cases (p : GoogleLoginProps) (k : string)
    (inst : option GoogleAuth) :
  call_returned p k inst = signIn p inst \/
  call_returned p k inst = signOut inst \/
  call_returned p k inst = throw (k ++ " is not a function").
Proof.
  unfold call_returned, useGoogleAuth, field.
  destruct (String.eqb k "signIn"); [now left|].
  destruct (String.eqb k "signOut"); [now right; left|now right; right].
Qed.

Ltac call_cases :=
  match goal with
  | |- context [step ?p (Call ?k ?inst) ?w] =>
      let E := fresh "E" in
      unfold step, on_event;
      destruct (call_returned_cases p k inst) as [E|[E|E]];
      rewrite E; clear E
  end.

Ltac each_event ev := destruct ev; try call_cases; run_closure.

Lemma step_gapiLoaded (p : GoogleLoginProps) (ev : Event) (w : World) :
  gapiLoaded (hook (world (step p ev w))) =
  gapiLoaded (hook w) || (is_script_load ev && registered ScriptListeners w).
Proof.
  each_event ev; repeat (split_match; cbn in * );
  rewrite ?orb_false_r, ?orb_true_r; try reflexivity; try congruence.
Qed.

Lemma registered_remove_one (h x : Handler) (l : list Handler) :
  existsb (Handler_eqb h) (remove_one x l) = true ->
  existsb (Handler_eqb h) l = true.
Proof.
  induction l as [|y l IH]; cbn; [easy|].
  destruct (Handler_eqb x y).
  - intros ->. apply orb_true_r.
  - cbn. destruct (Handler_eqb h y); cbn; auto.
Qed.

Lemma step_authLoaded (p : GoogleLoginProps) (ev : Event) (w : World) :
  authLoaded (hook (world (step p ev w))) =
  authLoaded (hook w) || (is_auth2_loaded ev && registered Auth2Callbacks w).
Proof.
  each_event ev; repeat (split_match; cbn in * );
  rewrite ?orb_false_r, ?orb_true_r; try reflexivity; try congruence.
Qed.

(** [gapi.load] is called, and its callbacks registered, by the second
    effect only, under [if (gapiLoaded)]. *)
Lemma step_registers_auth2 (p : GoogleLoginProps) (ev : Event) (w : World) :
  registered Auth2Callbacks (world (step p ev w)) = true ->
  registered Auth2Callbacks w = true \/
  gapiLoaded (hook (world (step p ev w))) = true.
Proof.
  unfold registered.
  each_event ev; repeat (split_match; cbn in * ); auto;
  try (intros H; apply registered_remove_one in H; auto).
Qed.

Lemma chain_invariant_step (p : GoogleLoginProps) (ev : Event) (w : World) :
  chain_invariant w -> chain_invariant (world (step p ev w)).
Proof.
  intros [Hreg Hauth]. split.
  - intros H. destruct (step_registers_auth2 p ev w H) as [H'|H']; auto.
    rewrite step_gapiLoaded. rewrite (Hreg H'). reflexivity.
  - rewrite step_authLoaded, step_gapiLoaded. intros H.
    apply orb_true_iff in H. destruct H as [H|H].
    + rewrite (Hauth H). reflexivity.
    + apply andb_true_iff in H. destruct H as [_ H].
      rewrite (Hreg H). reflexivity.
Qed.

Lemma chain_invariant_run (p : GoogleLoginProps) (evs : list Event) (w : World) :
  chain_invariant w -> chain_invariant (snd (run p evs w)).
Proof.
  revert w. induction evs as [|ev evs IH]; intros w Hw; cbn; [exact Hw|].
  apply IH, chain_invariant_step, Hw.
Qed.

Lemma chain_invariant_initial (d : Document) : chain_invariant (initial d).
Proof. split; cbn; discriminate. Qed.

(** C4. Loading only moves forward along "script not loaded, loaded, auth
    client ready".  In every state [w] a mounted hook can reach, and for
    every event: [gapiLoaded] is true afterwards exactly when it was true
    before or the event is the script's load event reaching the listener
    of line 45; [authLoaded] is true afterwards exactly when it was true
    before or the event is [gapi.load]'s callback; that callback is
    registered only in states where [gapiLoaded] is true; and [authLoaded]
    is never true while [gapiLoaded] is false. *)
Theorem loading_chain (p : GoogleLoginProps) (d : Document)
    (evs : list Event) (ev : Event) :
  gapiLoaded (hook (world (step p ev (snd (run p evs (initial d)))))) =
    gapiLoaded (hook (snd (run p evs (initial d))))
    || (is_script_load ev
        && registered ScriptListeners (snd (run p evs (initial d)))) /\
  authLoaded (hook (world (step p ev (snd (run p evs (initial d)))))) =
    authLoaded (hook (snd (run p evs (initial d))))
    || (is_auth2_loaded ev
        && registered Auth2Callbacks (snd (run p evs (initial d)))) /\
  implb (registered Auth2Callbacks (snd (run p evs (initial d))))
        (gapiLoaded (hook (snd (run p evs (initial d))))) = true /\
  implb (authLoaded (hook (snd (run p evs (initial d)))))
        (gapiLoaded (hook (snd (run p evs (initial d))))) = true.
Proof.
  destruct (chain_invariant_run p evs (initial d) (chain_invariant_initial d))
    as [Hreg Hauth].
  repeat split.
  - apply step_gapiLoaded.
  - apply step_authLoaded.
  - destruct (registered Auth2Callbacks _); cbn; auto.
  - destruct (authLoaded _); cbn; auto.
Qed.

(** *** The script tag *)

Lemma append_all_nil (d : Document) : append_all [] d = d.
Proof. destruct d as [h b]. unfold append_all. cbn. now rewrite app_nil_r. Qed.

Lemma session_change_appends_nothing (b : bool) (l : list Callback) :
  appended (map (fun f => Invoke f (BoolArg b)) l) = [].
Proof. induction l as [|f l IH]; cbn; auto. Qed.

Lemma step_injects (p : GoogleLoginProps) (ev : Event) (w : World) :
  appended (trace (step p ev w)) = injected p ev (document (env w)) /\
  document (env (world (step p ev w))) =
    append_all (injected p ev (document (env w))) (document (env w)).
Proof.
  unfold injected.
  destruct ev;
    try (unfold step, on_event, session_change; cbn;
         rewrite session_change_appends_nothing, append_all_nil;
         split; reflexivity);
    try call_cases; run_closure; rewrite ?append_all_nil;
    repeat (split_match; cbn in * ); rewrite ?append_all_nil;
    split; reflexivity.
Qed.

Lemma find_survives_insertion {A} (f : A -> bool) (l m l' : list A) :
  find f (l ++ l') <> None -> find f ((l ++ m) ++ l') <> None.
Proof.
  induction l as [|x l IH]; cbn.
  - induction m as [|y m IHm]; cbn; auto.
    destruct (f y); [discriminate|auto].
  - destruct (f x); auto.
Qed.

Lemma script_is_found (p : GoogleLoginProps) (d : Document) :
  getElementById "google-script" (append_all [script p] d) <> None.
Proof.
  unfold getElementById, append_all. cbn.
  induction (head d) as [|x l IH]; cbn.
  - discriminate.
  - destruct (has_id "google-script" x); [discriminate|exact IH].
Qed.

Lemma append_all_app (a b : list Element) (d : Document) :
  append_all b (append_all a d) = append_all (a ++ b) d.
Proof. unfold append_all. cbn. now rewrite app_assoc. Qed.

Lemma appended_app (t t' : list Effect) :
  appended (t ++ t') = (appended t ++ appended t')%list.
Proof. apply flat_map_app. Qed.

(** Once the element is on the page, no event of any component adds
    another. *)
Lemma page_run_present (xs : list (GoogleLoginProps * Hook * Event)) (e : Env) :
  getElementById "google-script" (document e) <> None ->
  appended (fst (page_run xs e)) = [] /\
  document (snd (page_run xs e)) = document e.
Proof.
  revert e. induction xs as [|[[p h] ev] xs IH]; intros e He; cbn; [auto|].
  destruct (step_injects p ev {| env := e; hook := h |}) as [Ht Hd].
  cbn in Ht, Hd.
  assert (Hnone : injected p ev (document e) = []).
  { unfold injected. destruct (is_mount ev); [|reflexivity].
    destruct (getElementById "google-script" (document e)); [reflexivity|].
    now elim He. }
  rewrite Hnone in Ht, Hd. rewrite append_all_nil in Hd.
  destruct (IH (env (world (step p ev {| env := e; hook := h |})))) as [IHt IHd].
  { now rewrite Hd. }
  rewrite appended_app, Ht, IHt, IHd, Hd. auto.
Qed.

(** C1. On a page shared by any number of components, through any sequence
    of events (mounts, repeated runs of the effects, and everything else
    that can happen to a hook), the elements appended to [document.head]
    are: none when an element with id 'google-script' is already in the
    document; otherwise only the script of the first component whose mount
    effect runs.  So at most one element is ever appended, it carries the id
    'google-script', and the page is otherwise left as it was. *)
Theorem script_injected_once (xs : list (GoogleLoginProps * Hook * Event))
    (e : Env) :
  appended (fst (page_run xs e)) =
    match getElementById "google-script" (document e), first_mount xs with
    | None, Some p => [script p]
    | _, _ => []
    end /\
  length (appended (fst (page_run xs e))) <= 1 /\
  Forall (fun el => id el = Some "google-script")
         (appended (fst (page_run xs e))) /\
  document (snd (page_run xs e)) =
    append_all (appended (fst (page_run xs e))) (document e).
Proof.
  assert (H : appended (fst (page_run xs e)) =
    match getElementById "google-script" (document e), first_mount xs with
    | None, Some p => [script p]
    | _, _ => []
    end /\
    document (snd (page_run xs e)) =
      append_all (appended (fst (page_run xs e))) (document e)).
  { revert e. induction xs as [|[[p h] ev] xs IH]; intros e; cbn.
    - rewrite append_all_nil.
      destruct (getElementById "google-script" (document e)); auto.
    - destruct (step_injects p ev {| env := e; hook := h |}) as [Ht Hd].
      cbn in Ht, Hd. rewrite appended_app, Ht. unfold injected in *.
      destruct (is_mount ev).
      + destruct (getElementById "google-script" (document e)) eqn:Hfind.
        * rewrite append_all_nil in Hd.
          destruct (page_run_present xs
            (env (world (step p ev {| env := e; hook := h |})))) as [Pt Pd].
          { rewrite Hd, Hfind. discriminate. }
          rewrite Pt, Pd, Hd, append_all_nil. auto.
        * destruct (page_run_present xs
            (env (world (step p ev {| env := e; hook := h |})))) as [Pt Pd].
          { rewrite Hd. apply script_is_found. }
          rewrite Pt, Pd, Hd. auto.
      + rewrite append_all_nil in Hd.
        destruct (IH (env (world (step p ev {| env := e; hook := h |}))))
          as [IHt IHd].
        rewrite Hd in IHt, IHd. cbn. auto. }
  destruct H as [Ht Hd]. split; [exact Ht|]. rewrite Ht.
  destruct (getElementById "google-script" (document e));
    destruct (first_mount xs); cbn; repeat split; auto.
  - rewrite Hd, Ht. reflexivity.
  - rewrite Hd, Ht. reflexivity.
  - rewrite Hd, Ht. reflexivity.
  - rewrite Hd, Ht. reflexivity.
Qed.

Ltac run_call := unfold call_returned, useGoogleAuth, field; cbn.

(** *** The configuration of the auth client *)

(** C2, as worded, fails: with [redirectUri] given and the default popup
    flow, the configuration that reaches [gapi.auth2.init] has
    [redirect_uri] equal to the empty string, not to [redirectUri]. *)
Lemma init_config_redirect_uri_differs :
  exists cfg,
    inits (trace (step popup_with_redirectUri (Auth2Loaded None None)
                    (script_loaded popup_with_redirectUri))) = [cfg] /\
    ClientConfig.redirect_uri cfg = Some "" /\
    redirectUri popup_with_redirectUri = Some "https://app.example/cb" /\
    ~ config_copies_props popup_with_redirectUri cfg.
Proof.
  eexists. split; [reflexivity|]. split; [reflexivity|].
  split; [reflexivity|].
  intros (_ & _ & _ & _ & _ & _ & H & _). cbn in H. discriminate.
Qed.

(** C2, amended.  When the script's load event reaches the hook, the hook
    calls [gapi.load('auth2', ...)]; when that calls back and there is no
    auth instance yet, the hook calls [gapi.auth2.init] once, with a
    configuration in which [client_id], [cookie_policy],
    [fetch_basic_profile], [hosted_domains] and [ux_mode] equal the
    caller's [clientId], [cookiePolicy], [fetchBasicProfile],
    [hostedDomains] and [uxMode], [scope] is the scope array joined by
    single spaces, [access_type] is 'offline' exactly when [stayLoggedIn]
    is true (and absent otherwise), and [redirect_uri] is [redirectUri]
    when [uxMode] is 'redirect' and the empty string otherwise. *)
Theorem init_config (p : GoogleLoginProps) (w : World)
    (inst' : option GoogleAuth) :
  registered ScriptListeners w = true ->
  gapiLoaded (hook w) = false ->
  trace (step p ScriptLoad w) = [GapiLoad "auth2"] /\
  exists cfg,
    inits (trace (step p (Auth2Loaded None inst')
                    (world (step p ScriptLoad w)))) = [cfg] /\
    ClientConfig.client_id cfg = clientId p /\
    ClientConfig.cookie_policy cfg = Some (cookiePolicy p) /\
    ClientConfig.fetch_basic_profile cfg = fetchBasicProfile p /\
    ClientConfig.hosted_domains cfg = hostedDomains p /\
    ClientConfig.scope cfg = Some (join " " (scope p)) /\
    ClientConfig.ux_mode cfg = Some (uxMode p) /\
    ClientConfig.redirect_uri cfg =
      (if is_redirect (uxMode p) then redirectUri p else Some "") /\
    ClientConfig.access_type cfg =
      (if stayLoggedIn p then Some "offline" else None).
Proof.
  intros Hreg Hflag.
  assert (Hstep : trace (step p ScriptLoad w) = [GapiLoad "auth2"] /\
                  registered Auth2Callbacks (world (step p ScriptLoad w)) = true).
  { unfold step, on_event, listener, then_effect, top_level, on_script_load,
      gapiEffect, setGapiLoaded, register, skip, bind, ret, emit, gets, modify,
      with_hook.
    rewrite Hreg, Hflag. cbn. auto. }
  destruct Hstep as [Ht Hreg2]. split; [exact Ht|].
  exists (clientConfig p).
  split; [|repeat split; reflexivity].
  generalize dependent (world (step p ScriptLoad w)). intros w1 Hreg2.
  run_closure. rewrite Hreg2. cbn.
  repeat (split_match; cbn in * ); reflexivity.
Qed.

Lemma init_config_witness :
  registered ScriptListeners (mounted with_callbacks) = true /\
  gapiLoaded (hook (mounted with_callbacks)) = false /\
  trace (step with_callbacks ScriptLoad (mounted with_callbacks)) =
    [GapiLoad "auth2"] /\
  exists cfg,
    inits (trace (step with_callbacks (Auth2Loaded None None)
                    (world (step with_callbacks ScriptLoad
                              (mounted with_callbacks))))) = [cfg] /\
    ClientConfig.scope cfg = Some "profile email" /\
    ClientConfig.redirect_uri cfg = Some "".
Proof.
  split; [reflexivity|]. split; [reflexivity|].
  destruct (init_config with_callbacks (mounted with_callbacks) None
              eq_refl eq_refl)
    as (Ht & cfg & Hi & _ & _ & _ & _ & Hs & _ & Hr & _).
  split; [exact Ht|]. exists cfg. split; [exact Hi|].
  split; [exact Hs|exact Hr].
Defined.

(** *** Sign-in *)

(** On the sign-in path (line 165): when a sign-in promise is fulfilled
    with the vendor's user object
    [u], the callbacks invoked are: [onLoginSuccess], once, if the caller
    supplied it, and none otherwise.  Its argument has [accessToken] and
    [tokenId] equal to the [access_token] and [id_token] of
    [u.getAuthResponse(true)], [tokenObject] equal to that auth response
    itself, and a [profile] whose [googleId], [imageUrl], [email], [name],
    [givenName] and [familyName] are the results of the basic profile's
    [getId], [getImageUrl], [getEmail], [getName], [getGivenName] and
    [getFamilyName]. *)
Theorem login_success_forwarded (p : GoogleLoginProps) (w : World)
    (u : GoogleUser) :
  registered SignInHandlers w = true ->
  exists o,
    invocations (trace (step p (SignInSettled (Fulfilled u)) w)) =
      match onLoginSuccess p with
      | Some f => [(f, SuccessArg o)]
      | None => []
      end /\
    accessToken o = access_token (getAuthResponse u true) /\
    tokenId o = id_token (getAuthResponse u true) /\
    tokenObject o = getAuthResponse u true /\
    googleId (profile o) = getId (getBasicProfile u) /\
    imageUrl (profile o) = getImageUrl (getBasicProfile u) /\
    email (profile o) = getEmail (getBasicProfile u) /\
    name (profile o) = getName (getBasicProfile u) /\
    givenName (profile o) = getGivenName (getBasicProfile u) /\
    familyName (profile o) = getFamilyName (getBasicProfile u).
Proof.
  intros Hreg.
  exists (successObject (getBasicProfile u) (getAuthResponse u true)).
  split; [|repeat split; reflexivity].
  run_closure. rewrite Hreg. cbn.
  destruct (onLoginSuccess p); reflexivity.
Qed.

Lemma login_success_forwarded_witness :
  registered SignInHandlers
    (world (step with_callbacks (Call "signIn" (Some signed_in))
              (auth_ready with_callbacks))) = true /\
  exists o,
    invocations
      (trace (step with_callbacks (SignInSettled (Fulfilled ada))
                (world (step with_callbacks (Call "signIn" (Some signed_in))
                          (auth_ready with_callbacks))))) =
      [(4, SuccessArg o)] /\
    accessToken o = "ya29.a0" /\
    email (profile o) = "ada@example.org".
Proof.
  split; [reflexivity|].
  destruct (login_success_forwarded with_callbacks
              (world (step with_callbacks (Call "signIn" (Some signed_in))
                        (auth_ready with_callbacks))) ada eq_refl)
    as (o & Hi & Ha & _ & _ & _ & _ & He & _).
  exists o. split; [exact Hi|]. split; [exact Ha|exact He].
Defined.

(** On the reload path (lines 231-232) the fulfilled promise carries the
    new auth response, and [handleLoginSuccess] starts by calling
    [getBasicProfile()] on it (line 196): whatever the props, the closure
    ends there and no callback is called. *)
Lemma reload_fulfilled_throws (p : GoogleLoginProps) (w : World)
    (a : AuthResponse) :
  registered ReloadHandlers w = true ->
  trace (step p (ReloadSettled (Fulfilled a)) w) =
    [Throw "response.getBasicProfile is not a function"] /\
  invocations (trace (step p (ReloadSettled (Fulfilled a)) w)) = [].
Proof.
  intros Hreg. run_closure. rewrite Hreg. cbn. auto.
Qed.

(** C3, at the input where the code departs from it.  The caller supplies
    [onLoginSuccess] and asks to stay logged in, and the vendor has a
    signed-in auth instance.  The third effect reloads the session; when
    the vendor fulfils the reload, line 232 hands the new auth response to
    [handleLoginSuccess], which calls [getBasicProfile()] on it.  An auth
    response has no such method: the closure ends in a TypeError and
    [onLoginSuccess] is not called.  With the same props, a [signIn]
    fulfilled with the user does call [onLoginSuccess], once, with the
    renamed fields. *)
Theorem reload_success_is_not_forwarded :
  onLoginSuccess staying = Some 4 /\
  count is_reload
    (fst (run staying
            [Mount None; ScriptLoad;
             Auth2Loaded (Some signed_in) (Some signed_in)]
            (initial empty_document))) = 1 /\
  registered ReloadHandlers (existing_instance staying) = true /\
  trace (step staying (ReloadSettled (Fulfilled (getAuthResponse ada true)))
           (existing_instance staying)) =
    [Throw "response.getBasicProfile is not a function"] /\
  invocations
    (trace (step staying (ReloadSettled (Fulfilled (getAuthResponse ada true)))
              (existing_instance staying))) = [] /\
  invocations
    (fst (run staying
            [Call "signIn" (Some signed_in); SignInSettled (Fulfilled ada)]
            (existing_instance staying))) =
    [(4, SuccessArg (successObject (getBasicProfile ada)
                       (getAuthResponse ada true)))].
Proof. repeat split; reflexivity. Qed.

(** C6. A sign-in attempt made when the auth client is ready invokes at
    most one callback.  When the vendor's promise is rejected with [e], it
    is [onLoginFailure], with [e], if the caller supplied it, and nothing
    otherwise: [onLoginSuccess], whose argument is a success object, is not
    invoked.  When the promise is fulfilled, every invocation carries a
    success object: [onLoginFailure] is not invoked. *)
Theorem login_failure_forwarded (p : GoogleLoginProps) (w : World)
    (g : GoogleAuth) :
  authLoaded (hook w) = true ->
  (forall e,
     invocations (fst (run p [Call "signIn" (Some g);
                              SignInSettled (Rejected e)] w)) =
       match onLoginFailure p with
       | Some f => [(f, ErrorArg e)]
       | None => []
       end) /\
  (forall u,
     Forall (fun i => exists o, snd i = SuccessArg o)
       (invocations (fst (run p [Call "signIn" (Some g);
                                 SignInSettled (Fulfilled u)] w)))) /\
  (forall r,
     length (invocations (fst (run p [Call "signIn" (Some g);
                                      SignInSettled r] w))) <= 1).
Proof.
  intros Hready.
  assert (Hrun : forall r,
    invocations (fst (run p [Call "signIn" (Some g); SignInSettled r] w)) =
    match r with
    | Fulfilled u =>
        match onLoginSuccess p with
        | Some f => [(f, SuccessArg (successObject (getBasicProfile u)
                                       (getAuthResponse u true)))]
        | None => []
        end
    | Rejected e =>
        match onLoginFailure p with
        | Some f => [(f, ErrorArg e)]
        | None => []
        end
    end).
  { intros r. unfold run. run_closure. run_call. run_closure.
    rewrite Hready. cbn.
    destruct r; cbn;
      [destruct (onLoginSuccess p)|destruct (onLoginFailure p)]; reflexivity. }
  repeat split.
  - intros e. apply (Hrun (Rejected e)).
  - intros u. rewrite (Hrun (Fulfilled u)).
    destruct (onLoginSuccess p); constructor; [cbn; eauto|constructor].
  - intros r. rewrite Hrun.
    destruct r; [destruct (onLoginSuccess p)|destruct (onLoginFailure p)];
      cbn; lia.
Qed.

Lemma login_failure_forwarded_witness :
  authLoaded (hook (auth_ready with_callbacks)) = true /\
  invocations (fst (run with_callbacks
                      [Call "signIn" (Some signed_in);
                       SignInSettled (Rejected "popup_closed_by_user")]
                      (auth_ready with_callbacks))) =
    [(3, ErrorArg "popup_closed_by_user")].
Proof.
  split; [reflexivity|].
  apply (login_failure_forwarded with_callbacks (auth_ready with_callbacks)
           signed_in eq_refl).
Defined.

(** *** Sign-out *)

(** C7. [signOut] called when the auth client is ready and there is an
    auth instance waits for the instance ([googleAuth.then]).  When that
    promise is fulfilled the hook calls the vendor's [signOut()], and when
    this one is fulfilled it calls [disconnect()] and then
    [onLogoutSuccess], without argument, exactly when the caller supplied
    it.  When the readiness promise is rejected with [e], the hook calls
    [onLogoutFailure(e)], and makes no sign-out call; the call is not
    guarded, so with no [onLogoutFailure] it ends in a TypeError. *)
Theorem logout_forwarded (p : GoogleLoginProps) (w : World) (g : GoogleAuth) :
  authLoaded (hook w) = true ->
  fst (run p [Call "signOut" (Some g); SignOutReady (Fulfilled tt);
              SignOutSettled (Fulfilled tt)] w) =
    ([GetAuthInstance; AuthThen; AuthSignOut; AuthDisconnect] ++
     match onLogoutSuccess p with
     | Some f => [Invoke f NoArg]
     | None => []
     end)%list /\
  (forall e,
     fst (run p [Call "signOut" (Some g); SignOutReady (Rejected e)] w) =
       [GetAuthInstance; AuthThen;
        match onLogoutFailure p with
        | Some f => Invoke f (ErrorArg e)
        | None => Throw "onLogoutFailure is not a function"
        end]).
Proof.
  intros Hready. split; [|intros e];
    unfold run; run_closure; run_call; run_closure; rewrite Hready; cbn.
  - destruct (onLogoutSuccess p); reflexivity.
  - destruct (onLogoutFailure p); reflexivity.
Qed.

Lemma logout_forwarded_witness :
  authLoaded (hook (auth_ready with_callbacks)) = true /\
  fst (run with_callbacks
         [Call "signOut" (Some signed_in); SignOutReady (Fulfilled tt);
          SignOutSettled (Fulfilled tt)] (auth_ready with_callbacks)) =
    [GetAuthInstance; AuthThen; AuthSignOut; AuthDisconnect;
     Invoke 6 NoArg] /\
  fst (run with_callbacks
         [Call "signOut" (Some signed_in);
          SignOutReady (Rejected "network_error")]
         (auth_ready with_callbacks)) =
    [GetAuthInstance; AuthThen; Invoke 5 (ErrorArg "network_error")].
Proof.
  split; [reflexivity|].
  destruct (logout_forwarded with_callbacks (auth_ready with_callbacks)
              signed_in eq_refl) as [Hok Hfail].
  split; [exact Hok|exact (Hfail "network_error")].
Defined.

(** *** The returned object *)

(** C8. For every props object the hook returns an object with the two
    fields [signIn] and [signOut] and no other.  Both are closures over the
    vendor's auth client: called when the client is ready and there is an
    instance, [signIn] calls the instance's [signIn] with the sign-in
    options and [signOut] starts with the instance's [then]. *)
Theorem returns_signIn_and_signOut (p : GoogleLoginProps) (w : World)
    (g : GoogleAuth) :
  authLoaded (hook w) = true ->
  map fst (useGoogleAuth p) = ["signIn"; "signOut"] /\
  (forall k, field k (useGoogleAuth p) = None \/
             k = "signIn" \/ k = "signOut") /\
  (exists f, field "signIn" (useGoogleAuth p) = Some f /\
     trace (f (Some g) w) = [GetAuthInstance; AuthSignIn (signInOptions p)]) /\
  (exists f, field "signOut" (useGoogleAuth p) = Some f /\
     trace (f (Some g) w) = [GetAuthInstance; AuthThen]).
Proof.
  intros Hready. split; [reflexivity|]. split; [|split].
  - intros k. unfold useGoogleAuth, field.
    destruct (String.eqb_spec k "signIn") as [->|_]; [auto|].
    destruct (String.eqb_spec k "signOut") as [->|_]; auto.
  - eexists. split; [reflexivity|]. run_closure. rewrite Hready. reflexivity.
  - eexists. split; [reflexivity|]. run_closure. rewrite Hready. reflexivity.
Qed.

Lemma returns_signIn_and_signOut_witness :
  authLoaded (hook (auth_ready (bare "app"))) = true /\
  map fst (useGoogleAuth (bare "app")) = ["signIn"; "signOut"].
Proof.
  split; [reflexivity|].
  apply (returns_signIn_and_signOut (bare "app") (auth_ready (bare "app"))
           signed_in eq_refl).
Defined.

(** C9. [signIn] and [signOut] called while [authLoaded] is false, or
    while the vendor has no auth instance, return normally having done
    nothing but, in the second case, ask for the instance: no sign-in or
    sign-out operation, no callback, and nothing registered that could
    call back later. *)
Theorem not_ready_does_nothing (p : GoogleLoginProps) (w : World)
    (inst : option GoogleAuth) (k : string) :
  authLoaded (hook w) = false \/ inst = None ->
  k = "signIn" \/ k = "signOut" ->
  trace (step p (Call k inst) w) =
    (if authLoaded (hook w) then [GetAuthInstance] else []) /\
  sign_operations (trace (step p (Call k inst) w)) = [] /\
  invocations (trace (step p (Call k inst) w)) = [] /\
  result (step p (Call k inst) w) = Normal tt /\
  world (step p (Call k inst) w) = w.
Proof.
  intros Hnot Hk.
  assert (H : trace (step p (Call k inst) w) =
                (if authLoaded (hook w) then [GetAuthInstance] else []) /\
              result (step p (Call k inst) w) = Normal tt /\
              world (step p (Call k inst) w) = w).
  { destruct Hk as [-> | ->]; run_closure; run_call; run_closure;
      destruct Hnot as [-> | ->]; cbn; auto;
      destruct (authLoaded (hook w)); cbn; auto. }
  destruct H as (Ht & Hr & Hw). rewrite Ht.
  destruct (authLoaded (hook w)); cbn; auto.
Qed.

Lemma not_ready_does_nothing_witness :
  (authLoaded (hook (script_loaded with_callbacks)) = false \/
   Some signed_in = None) /\
  ("signIn" = "signIn" \/ "signIn" = "signOut") /\
  trace (step with_callbacks (Call "signIn" (Some signed_in))
           (script_loaded with_callbacks)) = [].
Proof.
  split; [left; reflexivity|]. split; [left; reflexivity|].
  apply (not_ready_does_nothing with_callbacks (script_loaded with_callbacks)
           (Some signed_in) "signIn");
    left; reflexivity.
Defined.

(** *** The session-change listener *)

(** The vendor calls its listeners, and nobody else, on a session change. *)
Lemma session_change_invokes_listeners (p : GoogleLoginProps) (b : bool)
    (w : World) :
  invocations (trace (step p (SessionChange b) w)) =
  map (fun f => (f, BoolArg b)) (isSignedIn_listeners (env w)).
Proof.
  unfold step, on_event, session_change. cbn.
  induction (isSignedIn_listeners (env w)) as [|f l IH]; cbn; congruence.
Qed.

(** Fresh initialisation (lines 93-96): [listen] registers the caller's
    [onLoginChange]. *)
Lemma fresh_instance_listens (p : GoogleLoginProps) (w : World)
    (g : GoogleAuth) (f : Callback) :
  registered InitHandlers w = true ->
  onLoginChange p = Some f ->
  isSignedIn_listeners (env (world (step p (InitSettled (Fulfilled g)) w))) =
  (isSignedIn_listeners (env w) ++ [f])%list.
Proof.
  intros Hreg Hf. run_closure. rewrite Hreg, Hf. cbn.
  repeat (split_match; cbn in * ); reflexivity.
Qed.

(** Without [onLoginChange] neither branch registers a listener. *)
Lemma no_onLoginChange_no_listener (p : GoogleLoginProps) (w : World)
    (r : Settled GoogleAuth) :
  onLoginChange p = None ->
  isSignedIn_listeners (env (world (step p (InitSettled r) w))) =
    isSignedIn_listeners (env w) /\
  isSignedIn_listeners (env (world (step p (ReadySettled r) w))) =
    isSignedIn_listeners (env w).
Proof.
  intros Hf. split; run_closure; rewrite Hf;
    repeat (split_match; cbn in * ); reflexivity.
Qed.

(** Pre-existing instance (lines 125-128): whatever the props, no listener
    is registered. *)
Lemma existing_instance_never_listens (p : GoogleLoginProps) (w : World)
    (r : Settled GoogleAuth) :
  isSignedIn_listeners (env (world (step p (ReadySettled r) w))) =
  isSignedIn_listeners (env w).
Proof.
  run_closure. repeat (split_match; cbn in * ); reflexivity.
Qed.

(** C5, at the input where the code departs from it.  The caller supplies
    [onLoginChange] and [gapi.load] finds an auth instance that already
    exists.  When the instance is ready the hook calls
    [googleAuth.isSignedIn.listener(onLoginChange)]; [isSignedIn] has no
    such method, the call ends in a TypeError, no listener is registered
    and a later session change reaches no callback.  On the fresh
    initialisation path the same props get the listener registered and
    called. *)
Theorem existing_instance_listener_is_lost :
  onLoginChange with_callbacks = Some 2 /\
  registered ReadyHandlers (existing_instance with_callbacks) = true /\
  trace (step with_callbacks (ReadySettled (Fulfilled signed_in))
           (existing_instance with_callbacks)) =
    [Throw "isSignedIn.listener is not a function"] /\
  isSignedIn_listeners
    (env (world (step with_callbacks (ReadySettled (Fulfilled signed_in))
                   (existing_instance with_callbacks)))) = [] /\
  invocations
    (trace (step with_callbacks (SessionChange false)
              (world (step with_callbacks (ReadySettled (Fulfilled signed_in))
                        (existing_instance with_callbacks))))) = [] /\
  invocations
    (trace (step with_callbacks (SessionChange false)
              (world (step with_callbacks
                        (InitSettled (Fulfilled
                           {| isSignedIn_get := false;
                              currentUser_get := ada |}))
                        (auth_ready with_callbacks))))) =
    [(2, BoolArg false)].
Proof. repeat split; reflexivity. Qed.

(** *** Defaults *)

(** C10, as worded, fails: [hostedDomains] is not [clientId] and has no
    default; left out, its binding is [undefined]. *)
Lemma hostedDomains_has_no_default : ~ only_clientId_lacks_default.
Proof.
  intros H.
  apply (H P_hostedDomains ltac:(discriminate) (bare "app")); reflexivity.
Qed.

(** C10, amended.  A property the caller leaves out is bound to its
    default: [cookiePolicy] to 'single_host_origin', [prompt] to
    'select_account', [scope] to ['profile'] (and then the scope string
    given to the vendor, at [init] and at [signIn], is 'profile'), [src] to
    'https://apis.google.com/js/platform.js', [stayLoggedIn] to false and
    [uxMode] to 'popup'.  The other properties have no default and are
    bound to [undefined] when left out: [hostedDomains],
    [fetchBasicProfile], [redirectUri] and the six callbacks.  [clientId]
    is the only property that is always supplied: every other one is
    missing from the props [{ clientId }]. *)
Theorem defaults_when_omitted (p : GoogleLoginProps) (n : PropName) :
  supplied n p = Undefined ->
  binding n p =
    match n with
    | P_cookiePolicy => Str "single_host_origin"
    | P_prompt => Str "select_account"
    | P_scope => Strings ["profile"]
    | P_src => Str "https://apis.google.com/js/platform.js"
    | P_stayLoggedIn => Boolean false
    | P_uxMode => Str "popup"
    | _ => Undefined
    end /\
  match n with
  | P_scope =>
      ClientConfig.scope (clientConfig p) = Some "profile" /\
      SignInOptions.scope (signInOptions p) = Some "profile"
  | _ => True
  end /\
  supplied P_clientId p <> Undefined /\
  (forall m, m = P_clientId \/ supplied m (bare (clientId p)) = Undefined).
Proof.
  intros H. split; [|split; [|split]].
  - destruct p; destruct n; cbn in *;
      unfold cookiePolicy, prompt, scope, src, stayLoggedIn, uxMode,
        hostedDomains, fetchBasicProfile, redirectUri, onLoginChange,
        onLoginFailure, onLoadFailure, onLoginSuccess, onLogoutFailure,
        onLogoutSuccess; cbn;
      try discriminate;
      repeat match goal with
      | H : opt _ ?x = Undefined |- _ => destruct x; cbn in *; try discriminate
      end; reflexivity.
  - destruct n; auto. destruct p; cbn in *.
    unfold clientConfig, signInOptions, scope; cbn.
    destruct scope0; cbn in *; [discriminate|auto].
  - discriminate.
  - intros m. destruct m; auto.
Qed.

Lemma defaults_when_omitted_witness :
  supplied P_scope (bare "app") = Undefined /\
  binding P_scope (bare "app") = Strings ["profile"] /\
  ClientConfig.scope (clientConfig (bare "app")) = Some "profile".
Proof.
  split; [reflexivity|].
  destruct (defaults_when_omitted (bare "app") P_scope eq_refl)
    as (Hb & (Hc & _) & _).
  split; [exact Hb|exact Hc].
Defined.

(** ** Runs on concrete inputs *)

(** Two components mount on an empty page, the first one twice: one script
    tag, that of the first component. *)
Example two_components_one_script :
  appended (fst (page_run
    [ (bare "first", initial_hook, Mount None);
      (with_callbacks, initial_hook, Mount None);
      (bare "first", initial_hook, Mount None) ]
    {| document := empty_document; isSignedIn_listeners := [] |})) =
  [script (bare "first")].
Proof. reflexivity. Qed.

(** The chain is walked to its end: mount, script load, [gapi.load]
    callback. *)
Example chain_reaches_ready :
  (gapiLoaded (hook (mounted with_callbacks)),
   authLoaded (hook (mounted with_callbacks))) = (false, false) /\
  (gapiLoaded (hook (script_loaded with_callbacks)),
   authLoaded (hook (script_loaded with_callbacks))) = (true, false) /\
  (gapiLoaded (hook (auth_ready with_callbacks)),
   authLoaded (hook (auth_ready with_callbacks))) = (true, true).
Proof. repeat split; reflexivity. Qed.

(** A hook that mounts on a page where the script tag is already present
    gets no load event: the event finds no listener and changes nothing. *)
Example second_component_never_loads :
  gapiLoaded (hook (snd (run with_callbacks [Mount None; ScriptLoad]
    (initial {| head := [script (bare "first")]; body := [] |})))) = false.
Proof. reflexivity. Qed.

(** [signIn] with the client ready but no auth instance only asks for the
    instance. *)
Example signIn_without_instance :
  trace (step with_callbacks (Call "signIn" None) (auth_ready with_callbacks)) =
  [GetAuthInstance].
Proof. reflexivity. Qed.

(** A full session on the fresh-initialisation path. *)
Example fresh_session :
  invocations (fst (run with_callbacks
    [ Mount None; ScriptLoad; Auth2Loaded None None;
      InitSettled (Fulfilled signed_in); SessionChange false;
      Call "signIn" (Some signed_in); SignInSettled (Rejected "access_denied");
      Call "signOut" (Some signed_in); SignOutReady (Fulfilled tt);
      SignOutSettled (Fulfilled tt) ]
    (initial empty_document))) =
  [ (4, SuccessArg (successObject (getBasicProfile ada)
                      (getAuthResponse ada true)));
    (2, BoolArg false);
    (3, ErrorArg "access_denied");
    (6, NoArg) ].
Proof. reflexivity. Qed.

(** ** Further properties of the closures *)

Ltac call_split :=
  match goal with
  | |- context [step ?p (Call ?k ?inst) ?w] =>
      unfold step, on_event, call_returned, useGoogleAuth, field, is_call;
      destruct (String.eqb k "signIn") eqn:?;
      [|destruct (String.eqb k "signOut") eqn:?]
  end.

Ltac session_case :=
  match goal with
  | |- context [step ?p (SessionChange ?b) ?w] =>
      unfold step, on_event, session_change; cbn;
      induction (isSignedIn_listeners (env w)); cbn; auto
  end.

Ltac each_event' ev :=
  destruct ev; try session_case; try call_split; run_closure.

Lemma step_inits (p : GoogleLoginProps) (ev : Event)
    (w : World) :
  inits (trace (step p ev w)) =
  if is_auth2_loaded_fresh ev && registered Auth2Callbacks w
  then [clientConfig p] else [].
Proof.
  each_event' ev; repeat (split_match; cbn in * );
    try reflexivity; try congruence.
Qed.

(** X5. [gapi.auth2.init] is called by one closure only: [gapi.load]'s
    callback, when the vendor has no auth instance (line 85).  No other
    event calls it, and with an instance in place it is never called. *)
Theorem init_only_without_instance (p : GoogleLoginProps) (ev : Event)
    (w : World) :
  inits (trace (step p ev w)) =
  if is_auth2_loaded_fresh ev && registered Auth2Callbacks w
  then [clientConfig p] else [].
Proof.
  each_event' ev; repeat (split_match; cbn in * );
    try reflexivity; try congruence.
Qed.

Lemma step_gapi_loads (p : GoogleLoginProps) (ev : Event)
    (w : World) :
  gapi_loads (trace (step p ev w)) =
  if (is_mount ev && gapiLoaded (hook w))
     || (is_script_load ev && registered ScriptListeners w
         && negb (gapiLoaded (hook w)))
  then ["auth2"] else [].
Proof.
  each_event' ev; repeat (split_match; cbn in * );
    try reflexivity; try congruence;
    destruct (gapiLoaded (hook w)); cbn in *; congruence.
Qed.

(** X3. [gapi.load('auth2', ...)] is called by the second effect only, under
    [if (gapiLoaded)]: at the script's load event when that sets the flag,
    and at a run of the effects that finds the flag set. *)
Theorem gapi_load_needs_loaded_script (p : GoogleLoginProps) (ev : Event)
    (w : World) :
  gapi_loads (trace (step p ev w)) =
  if (is_mount ev && gapiLoaded (hook w))
     || (is_script_load ev && registered ScriptListeners w
         && negb (gapiLoaded (hook w)))
  then ["auth2"] else [].
Proof.
  each_event' ev; repeat (split_match; cbn in * );
    try reflexivity; try congruence;
    destruct (gapiLoaded (hook w)); cbn in *; congruence.
Qed.

Lemma step_sign_ins (p : GoogleLoginProps) (ev : Event)
    (w : World) :
  sign_ins (trace (step p ev w)) =
  if is_call "signIn" ev && authLoaded (hook w) && is_some (call_instance ev)
  then [signInOptions p] else [].
Proof.
  each_event' ev; repeat (split_match; cbn in * );
    try reflexivity; try congruence.
Qed.

(** X12. The vendor's [signIn] is called only when the component calls the
    returned [signIn] while [authLoaded] is true and there is an auth
    instance, and then once, with the sign-in options: the hook never
    opens a sign-in flow by itself. *)
Theorem sign_in_only_on_request (p : GoogleLoginProps) (ev : Event)
    (w : World) :
  sign_ins (trace (step p ev w)) =
  if is_call "signIn" ev && authLoaded (hook w) && is_some (call_instance ev)
  then [signInOptions p] else [].
Proof.
  each_event' ev; repeat (split_match; cbn in * );
    try reflexivity; try congruence.
Qed.

Lemma step_listeners (p : GoogleLoginProps) (ev : Event)
    (w : World) :
  isSignedIn_listeners (env (world (step p ev w))) =
  (isSignedIn_listeners (env w) ++
   if is_init_fulfilled ev && registered InitHandlers w
   then supplied_callback (onLoginChange p) else [])%list.
Proof.
  destruct ev; try call_split; run_closure;
    repeat (split_match; cbn in * );
    rewrite ?app_nil_r; try reflexivity; try congruence.
Qed.

(** X10. The vendor's [isSignedIn] listeners change at one place only: when the
    [init] promise is fulfilled, the caller's [onLoginChange], if
    supplied, is added at the end (lines 93-96).  No event removes a
    listener and no other event adds one. *)
Theorem listeners_only_from_init (p : GoogleLoginProps) (ev : Event)
    (w : World) :
  isSignedIn_listeners (env (world (step p ev w))) =
  (isSignedIn_listeners (env w) ++
   if is_init_fulfilled ev && registered InitHandlers w
   then supplied_callback (onLoginChange p) else [])%list.
Proof.
  destruct ev; try call_split; run_closure;
    repeat (split_match; cbn in * );
    rewrite ?app_nil_r; try reflexivity; try congruence.
Qed.

(** *** Failures while loading *)

(** X4. When [gapi.load] fails (lines 138-140) the hook calls [onLoadFailure]
    with the error and does nothing else: [authLoaded] keeps its value and
    [init] is not called.  The call is not guarded: with no
    [onLoadFailure] it ends in a TypeError. *)
Theorem gapi_load_failure (p : GoogleLoginProps) (w : World) (e : Err) :
  registered Auth2Callbacks w = true ->
  trace (step p (Auth2Failed e) w) =
    [match onLoadFailure p with
     | Some f => Invoke f (ErrorArg e)
     | None => Throw "onLoadFailure is not a function"
     end] /\
  authLoaded (hook (world (step p (Auth2Failed e) w))) = authLoaded (hook w) /\
  gapiLoaded (hook (world (step p (Auth2Failed e) w))) = gapiLoaded (hook w).
Proof.
  intros Hreg. run_closure. rewrite Hreg. cbn.
  destruct (onLoadFailure p); cbn; auto.
Qed.

Lemma gapi_load_failure_witness :
  registered Auth2Callbacks (script_loaded with_callbacks) = true /\
  trace (step with_callbacks (Auth2Failed "timeout")
           (script_loaded with_callbacks)) =
    [Invoke 1 (ErrorArg "timeout")].
Proof.
  split; [reflexivity|].
  apply (gapi_load_failure with_callbacks (script_loaded with_callbacks)
           "timeout" eq_refl).
Defined.

(** X6. When the [init] promise is rejected (lines 105-111) the hook logs the
    error with [console.error] and then calls [onLoadFailure] with it
    exactly when the caller supplied it; nothing is thrown and no listener
    is registered. *)
Theorem init_rejected_reports (p : GoogleLoginProps) (w : World) (e : Err) :
  registered InitHandlers w = true ->
  trace (step p (InitSettled (Rejected e)) w) =
    ConsoleError e ::
    match onLoadFailure p with
    | Some f => [Invoke f (ErrorArg e)]
    | None => []
    end /\
  isSignedIn_listeners (env (world (step p (InitSettled (Rejected e)) w))) =
    isSignedIn_listeners (env w).
Proof.
  intros Hreg. run_closure. rewrite Hreg. cbn.
  destruct (onLoadFailure p); cbn; auto.
Qed.

Lemma init_rejected_reports_witness :
  registered InitHandlers (auth_ready with_callbacks) = true /\
  trace (step with_callbacks (InitSettled (Rejected "idpiframe_failed"))
           (auth_ready with_callbacks)) =
    [ConsoleError "idpiframe_failed"; Invoke 1 (ErrorArg "idpiframe_failed")].
Proof.
  split; [reflexivity|].
  apply (init_rejected_reports with_callbacks (auth_ready with_callbacks)
           "idpiframe_failed" eq_refl).
Defined.

(** X2. A script that fails to load (line 46) reaches [onLoadFailure], when
    supplied, and leaves the hook as it was. *)
Theorem script_error_reports (p : GoogleLoginProps) (w : World) (e : Err) :
  registered ScriptListeners w = true ->
  trace (step p (ScriptError e) w) =
    match onLoadFailure p with
    | Some f => [Invoke f (ErrorArg e)]
    | None => []
    end /\
  world (step p (ScriptError e) w) = w.
Proof.
  intros Hreg. run_closure. rewrite Hreg. cbn.
  destruct (onLoadFailure p); cbn; auto.
Qed.

Lemma script_error_reports_witness :
  registered ScriptListeners (mounted with_callbacks) = true /\
  trace (step with_callbacks (ScriptError "net::ERR_FAILED")
           (mounted with_callbacks)) =
    [Invoke 1 (ErrorArg "net::ERR_FAILED")].
Proof.
  split; [reflexivity|].
  apply (script_error_reports with_callbacks (mounted with_callbacks)
           "net::ERR_FAILED" eq_refl).
Defined.

(** *** Signing in without a click *)

(** X7. When the [init] promise is fulfilled (lines 89-103) the hook reports a
    session that is already open: [onLoginSuccess], if supplied, is called
    once with the current user's success object when
    [isSignedIn.get()] is true, and no callback is called when it is
    false. *)
Theorem init_fulfilled_logs_in (p : GoogleLoginProps) (w : World)
    (g : GoogleAuth) :
  registered InitHandlers w = true ->
  invocations (trace (step p (InitSettled (Fulfilled g)) w)) =
    if isSignedIn_get g then
      match onLoginSuccess p with
      | Some f =>
          [(f, SuccessArg (successObject (getBasicProfile (currentUser_get g))
                             (getAuthResponse (currentUser_get g) true)))]
      | None => []
      end
    else [].
Proof.
  intros Hreg. run_closure. rewrite Hreg. cbn.
  repeat (split_match; cbn in * ); try reflexivity; congruence.
Qed.

Lemma init_fulfilled_logs_in_witness :
  registered InitHandlers (auth_ready with_callbacks) = true /\
  invocations (trace (step with_callbacks (InitSettled (Fulfilled signed_out))
                        (auth_ready with_callbacks))) = [].
Proof.
  split; [reflexivity|].
  apply (init_fulfilled_logs_in with_callbacks (auth_ready with_callbacks)
           signed_out eq_refl).
Defined.

(** X8. With an auth instance that already exists (lines 119-123), whether the
    hook reports the current user depends on [stayLoggedIn] alone, not on
    [isSignedIn]: with [stayLoggedIn] it calls [onLoginSuccess], if
    supplied, with the current user's success object; without it, it calls
    no callback. *)
Theorem existing_instance_logs_in (p : GoogleLoginProps) (w : World)
    (g : GoogleAuth) :
  registered ReadyHandlers w = true ->
  invocations (trace (step p (ReadySettled (Fulfilled g)) w)) =
    if stayLoggedIn p then
      match onLoginSuccess p with
      | Some f =>
          [(f, SuccessArg (successObject (getBasicProfile (currentUser_get g))
                             (getAuthResponse (currentUser_get g) true)))]
      | None => []
      end
    else [].
Proof.
  intros Hreg. run_closure. rewrite Hreg. cbn.
  repeat (split_match; cbn in * ); try reflexivity; congruence.
Qed.

Lemma existing_instance_logs_in_witness :
  registered ReadyHandlers (existing_instance staying) = true /\
  invocations (trace (step staying (ReadySettled (Fulfilled signed_out))
                        (existing_instance staying))) =
    [(4, SuccessArg (successObject (getBasicProfile ada)
                       (getAuthResponse ada true)))].
Proof.
  split; [reflexivity|].
  apply (existing_instance_logs_in staying (existing_instance staying)
           signed_out eq_refl).
Defined.

(** X9. When the readiness promise of an existing instance is rejected (lines
    130-134) the hook logs the error and calls [onLoginFailure] with it
    exactly when supplied. *)
Theorem ready_rejected_reports (p : GoogleLoginProps) (w : World) (e : Err) :
  registered ReadyHandlers w = true ->
  trace (step p (ReadySettled (Rejected e)) w) =
    ConsoleError e ::
    match onLoginFailure p with
    | Some f => [Invoke f (ErrorArg e)]
    | None => []
    end.
Proof.
  intros Hreg. run_closure. rewrite Hreg. cbn.
  destruct (onLoginFailure p); reflexivity.
Qed.

Lemma ready_rejected_reports_witness :
  registered ReadyHandlers (existing_instance with_callbacks) = true /\
  trace (step with_callbacks (ReadySettled (Rejected "idpiframe_failed"))
           (existing_instance with_callbacks)) =
    [ConsoleError "idpiframe_failed"; Invoke 3 (ErrorArg "idpiframe_failed")].
Proof.
  split; [reflexivity|].
  apply (ready_rejected_reports with_callbacks
           (existing_instance with_callbacks) "idpiframe_failed" eq_refl).
Defined.

(** *** Signing in and out *)

(** X13. The options of a sign-in (lines 154-159): [prompt] and [redirect_uri]
    are the caller's [prompt] and [redirectUri] ([redirect_uri] whatever
    the [uxMode], unlike in the [init] configuration), and [scope] and
    [ux_mode] are the same as those given to [init]. *)
Theorem sign_in_options (p : GoogleLoginProps) (w : World) (g : GoogleAuth) :
  authLoaded (hook w) = true ->
  exists opts,
    sign_ins (trace (step p (Call "signIn" (Some g)) w)) = [opts] /\
    SignInOptions.prompt opts = Some (prompt p) /\
    SignInOptions.redirect_uri opts = redirectUri p /\
    SignInOptions.scope opts = ClientConfig.scope (clientConfig p) /\
    SignInOptions.ux_mode opts = ClientConfig.ux_mode (clientConfig p).
Proof.
  intros Hready. exists (signInOptions p).
  split; [|repeat split; reflexivity].
  rewrite step_sign_ins. cbn. rewrite Hready. reflexivity.
Qed.

Lemma sign_in_options_witness :
  authLoaded (hook (auth_ready popup_with_redirectUri)) = true /\
  exists opts,
    sign_ins (trace (step popup_with_redirectUri (Call "signIn" (Some signed_in))
                       (auth_ready popup_with_redirectUri))) = [opts] /\
    SignInOptions.redirect_uri opts = Some "https://app.example/cb".
Proof.
  split; [reflexivity|].
  destruct (sign_in_options popup_with_redirectUri
              (auth_ready popup_with_redirectUri) signed_in eq_refl)
    as (opts & Hs & _ & Hr & _).
  exists opts. split; [exact Hs|exact Hr].
Defined.

(** X14. A vendor [signOut()] that is rejected (lines 179-187 give the promise
    no rejection handler) is silent: after the call to the vendor the hook
    calls neither [disconnect] nor [onLogoutSuccess] nor
    [onLogoutFailure]. *)
Theorem signOut_rejection_is_silent (p : GoogleLoginProps) (w : World)
    (g : GoogleAuth) (e : Err) :
  authLoaded (hook w) = true ->
  fst (run p [Call "signOut" (Some g); SignOutReady (Fulfilled tt);
              SignOutSettled (Rejected e)] w) =
    [GetAuthInstance; AuthThen; AuthSignOut].
Proof.
  intros Hready. unfold run. run_closure. run_call. run_closure.
  rewrite Hready. reflexivity.
Qed.

Lemma signOut_rejection_is_silent_witness :
  authLoaded (hook (auth_ready with_callbacks)) = true /\
  invocations (fst (run with_callbacks
    [Call "signOut" (Some signed_in); SignOutReady (Fulfilled tt);
     SignOutSettled (Rejected "network_error")]
    (auth_ready with_callbacks))) = [].
Proof.
  split; [reflexivity|].
  rewrite (signOut_rejection_is_silent with_callbacks
             (auth_ready with_callbacks) signed_in "network_error" eq_refl).
  reflexivity.
Defined.

(** *** The session-change listener, end to end *)

(** X11. After a fresh initialisation with [onLoginChange] supplied, a session
    change reaches the listeners that were there and then [onLoginChange],
    each with the new signed-in value. *)
Theorem fresh_listener_hears_changes (p : GoogleLoginProps) (w : World)
    (g : GoogleAuth) (f : Callback) (b : bool) :
  registered InitHandlers w = true ->
  onLoginChange p = Some f ->
  invocations
    (trace (step p (SessionChange b)
              (world (step p (InitSettled (Fulfilled g)) w)))) =
  (map (fun h => (h, BoolArg b)) (isSignedIn_listeners (env w)) ++
   [(f, BoolArg b)])%list.
Proof.
  intros Hreg Hf.
  rewrite session_change_invokes_listeners,
    (fresh_instance_listens p w g f Hreg Hf), map_app.
  reflexivity.
Qed.

Lemma fresh_listener_hears_changes_witness :
  registered InitHandlers (auth_ready with_callbacks) = true /\
  onLoginChange with_callbacks = Some 2 /\
  invocations
    (trace (step with_callbacks (SessionChange true)
              (world (step with_callbacks (InitSettled (Fulfilled signed_out))
                        (auth_ready with_callbacks))))) =
  [(2, BoolArg true)].
Proof.
  split; [reflexivity|]. split; [reflexivity|].
  apply (fresh_listener_hears_changes with_callbacks
           (auth_ready with_callbacks) signed_out 2 true eq_refl eq_refl).
Defined.

(** *** Reloading the session *)

Lemma step_reloads (p : GoogleLoginProps) (ev : Event) (w : World) :
  count is_reload (trace (step p ev w)) =
  if stayLoggedIn p && reload_trigger ev w then 1 else 0.
Proof.
  unfold count.
  each_event' ev; repeat (split_match; cbn in * );
    try reflexivity; try congruence;
    repeat match goal with H : _ = _ |- _ => revert H end;
    destruct (authLoaded (hook w)), (stayLoggedIn p),
      (registered Auth2Callbacks w);
    cbn; intros; congruence.
Qed.

(** X15. [reloadAuthResponse()] is called by the third effect only (lines
    222-237), once, when [stayLoggedIn] is on, [authLoaded] is true and the
    vendor has an instance whose [isSignedIn.get()] is true: that is, when
    [gapi.load]'s callback sets [authLoaded], or when the effects run with
    the flag already set. *)
Theorem reload_requested (p : GoogleLoginProps) (ev : Event) (w : World) :
  count is_reload (trace (step p ev w)) =
  if stayLoggedIn p && reload_trigger ev w then 1 else 0.
Proof.
  unfold count.
  each_event' ev; repeat (split_match; cbn in * );
    try reflexivity; try congruence;
    repeat match goal with H : _ = _ |- _ => revert H end;
    destruct (authLoaded (hook w)), (stayLoggedIn p),
      (registered Auth2Callbacks w);
    cbn; intros; congruence.
Qed.

(** X16. When the reload is rejected (line 233), [onLoginFailure] gets the
    error exactly when supplied, and nothing else is called. *)
Theorem reload_rejected_reports (p : GoogleLoginProps) (w : World) (e : Err) :
  registered ReloadHandlers w = true ->
  trace (step p (ReloadSettled (Rejected e)) w) =
    match onLoginFailure p with
    | Some f => [Invoke f (ErrorArg e)]
    | None => []
    end.
Proof.
  intros Hreg. run_closure. rewrite Hreg. cbn.
  destruct (onLoginFailure p); reflexivity.
Qed.

Lemma reload_rejected_reports_witness :
  registered ReloadHandlers (existing_instance staying) = true /\
  trace (step staying (ReloadSettled (Rejected "token_expired"))
           (existing_instance staying)) =
    [Invoke 3 (ErrorArg "token_expired")].
Proof.
  split; [reflexivity|].
  apply (reload_rejected_reports staying (existing_instance staying)
           "token_expired" eq_refl).
Defined.

(** *** What never happens over a whole run *)

Lemma count_app (f : Effect -> bool) (t t' : list Effect) :
  count f (t ++ t') = count f t + count f t'.
Proof. unfold count. now rewrite filter_app, length_app. Qed.

(** X17. With [stayLoggedIn] off, which is the default, the hook never calls
    [reloadAuthResponse()], whatever happens to it. *)
Theorem no_reload_without_stayLoggedIn (p : GoogleLoginProps)
    (evs : list Event) (w : World) :
  stayLoggedIn p = false ->
  count is_reload (fst (run p evs w)) = 0.
Proof.
  intros Hstay. revert w.
  induction evs as [|ev evs IH]; intros w; cbn [run fst snd].
  - reflexivity.
  - rewrite count_app, step_reloads, Hstay, IH. reflexivity.
Qed.

Lemma no_reload_without_stayLoggedIn_witness :
  stayLoggedIn with_callbacks = false /\
  count is_reload (fst (run with_callbacks
    [Mount None; ScriptLoad; Auth2Loaded None (Some signed_in);
     InitSettled (Fulfilled signed_in); Mount (Some signed_in)]
    (initial empty_document))) = 0.
Proof.
  split; [reflexivity|].
  apply (no_reload_without_stayLoggedIn with_callbacks _ _ eq_refl).
Defined.

Lemma session_change_no_sign_operation (b : bool) (l : list Callback) :
  sign_operations (map (fun f => Invoke f (BoolArg b)) l) = [].
Proof. induction l as [|f l IH]; cbn; auto. Qed.

Lemma left_out_step (p : GoogleLoginProps) (ev : Event) (w : World) :
  left_out w = true ->
  world (step p ev w) = w /\
  sign_operations (trace (step p ev w)) = [].
Proof.
  unfold left_out. intros H.
  apply andb_true_iff in H. destruct H as [H Hauth].
  apply andb_true_iff in H. destruct H as [H Hgapi].
  apply andb_true_iff in H. destruct H as [Hdoc Hpending].
  assert (Hreg : forall h, registered h w = false).
  { intros h. unfold registered.
    destruct (pending (hook w)); [reflexivity|discriminate]. }
  apply negb_true_iff in Hauth, Hgapi.
  destruct (getElementById "google-script" (document (env w))) eqn:Hfind;
    [|discriminate].
  destruct ev;
    try (unfold step, on_event, session_change; cbn;
         rewrite session_change_no_sign_operation; auto; fail);
    try call_split; run_closure;
    rewrite ?Hreg, ?Hfind, ?Hauth, ?Hgapi; cbn;
    rewrite ?Hreg, ?Hfind, ?Hauth, ?Hgapi; cbn; auto.
Qed.

(** X18. A hook that mounts on a page where the script tag is already present
    (line 38) never becomes ready.  It registers no 'load' listener, so
    whatever happens afterwards its state stays as it was, with
    [gapiLoaded] and [authLoaded] false: it never calls [gapi.load] or
    [init], and its [signIn] and [signOut] never reach the vendor. *)
Theorem second_instance_never_ready (p : GoogleLoginProps)
    (evs : list Event) (w : World) :
  left_out w = true ->
  snd (run p evs w) = w /\
  gapi_loads (fst (run p evs w)) = [] /\
  inits (fst (run p evs w)) = [] /\
  sign_operations (fst (run p evs w)) = [].
Proof.
  intros Hout. induction evs as [|ev evs IH]; cbn [run fst snd]; [auto|].
  destruct (left_out_step p ev w Hout) as [Hw Hs].
  rewrite Hw. destruct IH as (IHw & IHg & IHi & IHs).
  unfold gapi_loads, inits, sign_operations in *.
  rewrite !flat_map_app, filter_app, IHg, IHi, IHs, Hs, !app_nil_r.
  fold (gapi_loads (trace (step p ev w))).
  fold (inits (trace (step p ev w))).
  rewrite step_gapi_loads, step_inits.
  unfold left_out in Hout.
  apply andb_true_iff in Hout. destruct Hout as [Hout Hauth].
  apply andb_true_iff in Hout. destruct Hout as [Hout Hgapi].
  apply andb_true_iff in Hout. destruct Hout as [_ Hpending].
  apply negb_true_iff in Hgapi.
  assert (Hreg : forall h, registered h w = false).
  { intros h. unfold registered.
    destruct (pending (hook w)); [reflexivity|discriminate]. }
  rewrite Hgapi, !Hreg, !andb_false_r. auto.
Qed.

Lemma second_instance_never_ready_witness :
  left_out (mounted_late with_callbacks) = true /\
  snd (run with_callbacks
         [ScriptLoad; Auth2Loaded None None; Call "signIn" (Some signed_in)]
         (mounted_late with_callbacks)) = mounted_late with_callbacks /\
  sign_operations (fst (run with_callbacks
         [ScriptLoad; Auth2Loaded None None; Call "signIn" (Some signed_in)]
         (mounted_late with_callbacks))) = [].
Proof.
  split; [reflexivity|].
  destruct (second_instance_never_ready with_callbacks
              [ScriptLoad; Auth2Loaded None None; Call "signIn" (Some signed_in)]
              (mounted_late with_callbacks) eq_refl) as (Hw & _ & _ & Hs).
  split; [exact Hw|exact Hs].
Defined.

Lemma callbacks_spec (p : GoogleLoginProps) (f : Callback) :
  onLoadFailure p = Some f \/ onLoginChange p = Some f \/
  onLoginFailure p = Some f \/ onLoginSuccess p = Some f \/
  onLogoutFailure p = Some f \/ onLogoutSuccess p = Some f ->
  In f (callbacks p).
Proof.
  unfold callbacks.
  rewrite !in_app_iff.
  intros [H|[H|[H|[H|[H|H]]]]]; rewrite H; cbn; auto 10.
Qed.

Lemma invocations_app (t t' : list Effect) :
  invocations (t ++ t') = (invocations t ++ invocations t')%list.
Proof. apply flat_map_app. Qed.

Lemma step_invokes_callers (p : GoogleLoginProps) (ev : Event) (w : World) :
  listeners_from p w ->
  Forall (fun i => In (fst i) (callbacks p))
         (invocations (trace (step p ev w))).
Proof.
  intros Hl.
  destruct ev;
    try (rewrite session_change_invokes_listeners;
         apply Forall_forall; intros i Hi;
         apply in_map_iff in Hi; destruct Hi as (f & <- & Hf);
         apply Hl, Hf);
    try call_split; run_closure;
    repeat (split_match; cbn in * );
    repeat constructor; cbn; apply callbacks_spec; auto 10.
Qed.

Lemma step_listeners_from (p : GoogleLoginProps) (ev : Event) (w : World) :
  listeners_from p w -> listeners_from p (world (step p ev w)).
Proof.
  unfold listeners_from. intros Hl. rewrite step_listeners.
  apply incl_app; [exact Hl|].
  destruct (is_init_fulfilled ev && registered InitHandlers w);
    [|apply incl_nil_l].
  destruct (onLoginChange p) as [f|] eqn:Hf; [|apply incl_nil_l].
  intros x [<-|[]]. apply callbacks_spec. auto.
Qed.

Lemma run_invokes_callers (p : GoogleLoginProps) (evs : list Event)
    (w : World) :
  listeners_from p w ->
  Forall (fun i => In (fst i) (callbacks p)) (invocations (fst (run p evs w))).
Proof.
  revert w. induction evs as [|ev evs IH]; intros w Hl; cbn [run fst snd].
  - constructor.
  - rewrite invocations_app. apply Forall_app. split.
    + apply step_invokes_callers, Hl.
    + apply IH, step_listeners_from, Hl.
Qed.

(** X19. Every function called back during the life of a hook is one the caller
    passed in the props: [onLoadFailure], [onLoginChange],
    [onLoginFailure], [onLoginSuccess], [onLogoutFailure] or
    [onLogoutSuccess].  This holds on a page where the vendor's listeners
    are this hook's own, through any sequence of events. *)
Theorem invoked_functions_are_callers (p : GoogleLoginProps)
    (d : Document) (evs : list Event) :
  Forall (fun i => In (fst i) (callbacks p))
         (invocations (fst (run p evs (initial d)))).
Proof.
  apply run_invokes_callers. unfold listeners_from. cbn. apply incl_nil_l.
Qed.

Lemma waiting_remove_le (h x : Handler) (l : list Handler) :
  length (filter (Handler_eqb h) (remove_one x l)) <=
  length (filter (Handler_eqb h) l).
Proof.
  induction l as [|y l IH]; cbn; [lia|].
  destruct (Handler_eqb x y); cbn.
  - destruct (Handler_eqb h y); cbn; lia.
  - destruct (Handler_eqb h y); cbn; lia.
Qed.

Lemma waiting_remove_same (h : Handler) (l : list Handler) :
  existsb (Handler_eqb h) l = true ->
  S (length (filter (Handler_eqb h) (remove_one h l))) =
  length (filter (Handler_eqb h) l).
Proof.
  induction l as [|y l IH]; cbn; [discriminate|].
  destruct (Handler_eqb h y) eqn:Hy; cbn; [reflexivity|].
  rewrite Hy. intros H. apply IH, H.
Qed.

Lemma session_change_counts_nothing (f : Effect -> bool) (b : bool)
    (l : list Callback) :
  (forall g a, f (Invoke g a) = false) ->
  count f (map (fun g => Invoke g (BoolArg b)) l) = 0.
Proof.
  intros Hf. unfold count. induction l as [|g l IH]; cbn; [reflexivity|].
  now rewrite Hf.
Qed.

Lemma step_disconnect_budget (p : GoogleLoginProps) (ev : Event) (w : World) :
  count is_disconnect (trace (step p ev w))
    + waiting SignOutHandlers (world (step p ev w)) <=
  count is_vendor_signOut (trace (step p ev w)) + waiting SignOutHandlers w.
Proof.
  unfold waiting.
  destruct ev;
    try (unfold step, on_event, session_change; cbn [trace world];
         rewrite !session_change_counts_nothing by reflexivity; lia);
    try call_split; run_closure; unfold count, registered in *;
    repeat (split_match; cbn in * ); try lia;
    try match goal with
    | H : existsb (Handler_eqb SignOutHandlers) ?l = true |- _ =>
        pose proof (waiting_remove_same SignOutHandlers l H); lia
    end;
    match goal with
    | |- context [remove_one ?x ?l] =>
        pose proof (waiting_remove_le SignOutHandlers x l); lia
    end.
Qed.

Lemma run_disconnect_budget (p : GoogleLoginProps) (evs : list Event)
    (w : World) :
  count is_disconnect (fst (run p evs w))
    + waiting SignOutHandlers (snd (run p evs w)) <=
  count is_vendor_signOut (fst (run p evs w)) + waiting SignOutHandlers w.
Proof.
  revert w. induction evs as [|ev evs IH]; intros w; cbn [run fst snd].
  - cbn. lia.
  - rewrite !count_app.
    pose proof (step_disconnect_budget p ev w).
    pose proof (IH (world (step p ev w))). lia.
Qed.

(** X20. [disconnect()] only follows a vendor [signOut()] (lines 179-181): over
    any sequence of events, the hook has called [disconnect] at most as
    many times as it has called the vendor's [signOut]. *)
Theorem disconnect_follows_signOut (p : GoogleLoginProps) (d : Document)
    (evs : list Event) :
  count is_disconnect (fst (run p evs (initial d))) <=
  count is_vendor_signOut (fst (run p evs (initial d))).
Proof.
  pose proof (run_disconnect_budget p evs (initial d)) as H.
  unfold waiting in H at 2. cbn in H. lia.
Qed.

(** *** The script tag, looked up again *)

Lemma find_appended {A} (f : A -> bool) (x : A) (l l' : list A) :
  find f (l ++ l') = None -> f x = true ->
  find f ((l ++ [x]) ++ l') = Some x.
Proof.
  intros Hnone Hx. induction l as [|y l IH]; cbn in *.
  - now rewrite Hx.
  - destruct (f y); [discriminate|auto].
Qed.

Lemma mount_registers_listeners (p : GoogleLoginProps)
    (inst : option GoogleAuth) (w : World) :
  getElementById "google-script" (document (env w)) = None ->
  registered ScriptListeners (world (step p (Mount inst) w)) = true.
Proof.
  intros Hnone. unfold registered. run_closure. rewrite Hnone. cbn.
  repeat (split_match; cbn in * ); reflexivity.
Qed.

(** X1. Mounting on a page without the script tag (lines 38-48) appends one
    element: a [script] with id 'google-script', [async], and the caller's
    [src] or, by default, the platform.js URL.  After that
    [getElementById('google-script')] finds this element, and the hook
    listens to its 'load' and 'error' events. *)
Theorem mount_injects_script (p : GoogleLoginProps)
    (inst : option GoogleAuth) (w : World) :
  getElementById "google-script" (document (env w)) = None ->
  exists el,
    appended (trace (step p (Mount inst) w)) = [el] /\
    tagName el = "script" /\
    id el = Some "google-script" /\
    async el = true /\
    src_attr el =
      or_default "https://apis.google.com/js/platform.js" (Props.src p) /\
    getElementById "google-script"
      (document (env (world (step p (Mount inst) w)))) = Some el /\
    registered ScriptListeners (world (step p (Mount inst) w)) = true.
Proof.
  intros Hnone. exists (script p).
  destruct (step_injects p (Mount inst) w) as [Ht Hd].
  unfold injected in Ht, Hd. cbn [is_mount] in Ht, Hd.
  rewrite Hnone in Ht, Hd.
  split; [exact Ht|]. repeat (split; [reflexivity|]).
  split; [|apply mount_registers_listeners, Hnone].
  rewrite Hd. unfold getElementById, append_all. cbn [head body].
  apply find_appended; [exact Hnone|reflexivity].
Qed.

Lemma mount_injects_script_witness :
  getElementById "google-script" (document (env (initial empty_document))) =
    None /\
  exists el,
    appended (trace (step with_callbacks (Mount None)
                       (initial empty_document))) = [el] /\
    src_attr el = "https://apis.google.com/js/platform.js".
Proof.
  split; [reflexivity|].
  destruct (mount_injects_script with_callbacks None (initial empty_document)
              eq_refl) as (el & Ht & _ & _ & _ & Hs & _).
  exists el. split; [exact Ht|exact Hs].
Defined.
